(** * The VQE runtime program client of qiskit-nature

    A shallow embedding of [qiskit_nature/runtime/vqe_program.py] (the
    [VQEProgram] settings object, its setters, the callback adapter, the
    dispatch method [compute_minimum_eigenvalue] and the module function
    [_validate_optimizer_settings]) and of the test doubles of
    [test/runtime/fake_vqeruntime.py].

    Python objects that the code handles itself (strings, lists, numbers,
    [None]) are values of the inductive type [value]; objects owned by
    Qiskit (circuits, operators, providers, backends, jobs) are the carrier
    types of an interface class, and the Qiskit calls the code makes are its
    operations; so is the one thing the code asks of numpy, the truth value
    of comparing a string with an array.  Exceptions are values of [exn]; a
    call returns an [outcome]. *)

From Stdlib Require Import ZArith String List.
From stdpp Require Import base option list gmap sets strings.

Set Warnings "-register-all".

Local Open Scope string_scope.
Local Open Scope Z_scope.

(** ** Python values *)

Module Py.

(** The values the client code builds and inspects by itself.  [VFloat m e]
    is the decimal literal [m * 10^e]; [VArray] is a one-dimensional numpy
    array. *)
Inductive value : Type :=
| VNone
| VBool (b : bool)
| VInt (n : Z)
| VFloat (m e : Z)
| VStr (s : string)
| VList (l : list value)
| VArray (a : list value).

(** Equality of values.  It is Python's [==] where the code compares a
    string with a string or with a list of strings; a comparison with an
    array goes through [str_eq] below. *)
Definition value_eq_dec : ∀ x y : value, {x = y} + {x ≠ y}.
Proof.
  fix IH 1. intros x y.
  decide equality;
    try apply Z.eq_dec; try apply String.string_dec; try apply Bool.bool_dec;
    apply (List.list_eq_dec IH).
Defined.

#[export] Instance value_eq_decision : EqDecision value := value_eq_dec.

(** Exception classes that occur in the code or that Python raises for the
    operations the code performs. *)
Inductive exn_class : Type :=
| ValueError
| NotImplementedError
| IndexError
| TypeError
| AttributeError
| KeyError
| IBMQNotAuthorizedError
| OtherError (name : string).

#[export] Instance exn_class_eq_decision : EqDecision exn_class.
Proof. solve_decision. Defined.

(** An f-string is a concatenation of literal text and formatted values; a
    formatted [set] has no fixed element order, so it is kept as a set. *)
Inductive part : Type :=
| Lit (s : string)
| Fmt (v : value)
| Keys (X : gset string).

(** An exception: its class, its message and, for [raise ... from exc], its
    cause. *)
Inductive exn : Type :=
| Exn (cls : exn_class) (msg : list part) (cause : option exn).

Definition exn_cls (e : exn) : exn_class := let 'Exn c _ _ := e in c.
Definition exn_msg (e : exn) : list part := let 'Exn _ m _ := e in m.
Definition exn_cause (e : exn) : option exn := let 'Exn _ _ c := e in c.

(** The result of evaluating an expression or a call. *)
Inductive outcome (A : Type) : Type :=
| Ok (a : A)
| Raise (e : exn).
Arguments Ok {A} a.
Arguments Raise {A} e.

Definition obind {A B} (o : outcome A) (k : A → outcome B) : outcome B :=
  match o with
  | Ok a => k a
  | Raise e => Raise e
  end.

(** [try: body except C as exc: raise handler(exc)], where [catches] tells
    which exception classes [C] covers. *)
Definition try_except {A} (body : outcome A)
    (catches : exn_class → bool) (handler : exn → exn) : outcome A :=
  match body with
  | Ok a => Ok a
  | Raise exc => if catches (exn_cls exc) then Raise (handler exc) else Raise exc
  end.

(** [except Exception]: every class of [exn_class] derives from [Exception]. *)
Definition Exception (c : exn_class) : bool := true.

(** What the code asks of numpy: the truth value of [s == a] for a string
    [s] and an array [a].  numpy compares elementwise and takes the truth
    value of the array of results, which raises for some arrays. *)
Class Numpy : Type := {
  array_eq_str : string → list value → outcome bool;
}.

(** The truth value of [s == x], or of [x == s], for a string [s]: a string
    equals the same string only, and an array answers the comparison
    itself. *)
Definition str_eq `{Numpy} (s : string) (x : value) : outcome bool :=
  match x with
  | VStr t => Ok (bool_decide (s = t))
  | VArray a => array_eq_str s a
  | _ => Ok false
  end.

(** [x in l] for a list [l] of strings: the elements are compared with [x]
    in turn until one is equal. *)
Fixpoint contains `{Numpy} (x : value) (l : list string) : outcome bool :=
  match l with
  | [] => Ok false
  | s :: l' =>
      obind (str_eq s x) (λ b, if b : bool then Ok true else contains x l')
  end.

(** [l.remove(x)]: drops the first element equal to [x]; raises
    [ValueError] when there is none. *)
Fixpoint list_remove (x : value) (l : list value) : outcome (list value) :=
  match l with
  | [] => Raise (Exn ValueError [Lit "list.remove(x): x not in list"] None)
  | y :: l' =>
      if decide (y = x) then Ok l'
      else obind (list_remove x l') (λ r, Ok (y :: r))
  end.

(** [seq[i]] for a constant index [i >= 0]. *)
Definition getitem (seq : value) (i : nat) : outcome value :=
  match seq with
  | VList l =>
      match l !! i with
      | Some v => Ok v
      | None => Raise (Exn IndexError [Lit "list index out of range"] None)
      end
  | VArray a =>
      match a !! i with
      | Some v => Ok v
      | None => Raise (Exn IndexError [Lit "index out of bounds"] None)
      end
  | VStr s =>
      match String.get i s with
      | Some c => Ok (VStr (String c EmptyString))
      | None => Raise (Exn IndexError [Lit "string index out of range"] None)
      end
  | _ => Raise (Exn TypeError [Lit "object is not subscriptable"] None)
  end.

(** [d[key]] for a dictionary [d] kept in insertion order. *)
Definition dict_get {A} (d : list (string * A)) (key : string) : outcome A :=
  match List.find (λ kv, bool_decide (kv.1 = key)) d with
  | Some kv => Ok kv.2
  | None => Raise (Exn KeyError [Lit key] None)
  end.

End Py.
Import Py.

Notation "x <- m ;; k" := (obind m (λ x, k))
  (at level 100, m at next level, right associativity).

(** ** The module function [_validate_optimizer_settings] *)

Definition allowed_settings : list value :=
  [ VStr "maxiter"; VStr "blocking"; VStr "allowed_increase";
    VStr "trust_region"; VStr "learning_rate"; VStr "perturbation";
    VStr "resamplings"; VStr "last_avg"; VStr "second_order";
    VStr "hessian_delay"; VStr "regularization"; VStr "initial_hessian" ].

(** [set(settings.keys()) - set(allowed)]: the keys of [settings] that are
    not an element of [allowed]. *)
Definition unsupported (settings : gmap string value) (allowed : list value)
  : gset string :=
  filter (λ k, VStr k ∉ allowed) (dom settings).

Definition _validate_optimizer_settings `{Numpy}
    (name : value) (settings : gmap string value) : outcome unit :=
  known <- contains name ["SPSA"; "QN-SPSA"];;
  if negb known then
    Raise (Exn NotImplementedError
             [Lit "Only SPSA and QN-SPSA are currently supported."] None)
  else
    allowed_settings <-
      (is_qn_spsa <- str_eq "QN-SPSA" name;;
       if is_qn_spsa : bool then
         list_remove (VList [VStr "trust_region"; VStr "second_order"])
                     allowed_settings
       else Ok allowed_settings);;
    let unsupported_args := unsupported settings allowed_settings in
    if decide (0 < size unsupported_args)%nat then
      Raise (Exn ValueError
               [Lit "The following settings are unsupported for the ";
                Fmt name;
                Lit " optimizer: "; Keys unsupported_args] None)
    else Ok tt.

(** ** Objects and calls owned by Qiskit *)

(** A Python callable taking positional arguments, with the truth value of
    the object: [True] for a function, and what [__bool__] or [__len__] give
    for an object that defines them. *)
Record callable : Type := Callable {
  call :> list value → outcome value;
  truth : bool;
}.

(** The classes of the objects the program stores or passes on. *)
Class QiskitTypes : Type := {
  QuantumCircuit : Type;
  Provider : Type;
  Backend : Type;
  (** whatever object is passed as [operator] *)
  Operator : Type;
  (** the value of [operator.primitive] *)
  Primitive : Type;
  (** the value of [operator.coeff] *)
  Coeff : Type;
  SparsePauli : Type;
  Optimizer : Type;
  (** the value of [provider.runtime] *)
  RuntimeService : Type;
  Job : Type;
  MinimumEigensolverResult : Type;
}.

(** A value of the [inputs] dictionary sent to the runtime. *)
Inductive arg `{QiskitTypes} : Type :=
| ArgOperator (o : Operator)
| ArgOperators (l : option (list (option Operator)))
| ArgCircuit (c : QuantumCircuit)
| ArgValue (v : value)
| ArgDict (d : gmap string value).

(** The Qiskit operations the program calls. *)
Class Qiskit `{QiskitTypes} : Type := {
  (** [provider.runtime]; a missing attribute raises [AttributeError] *)
  getattr_runtime : Provider → outcome RuntimeService;
  (** [str(provider)] *)
  provider_str : Provider → string;
  (** [backend.name()] *)
  backend_name : Backend → string;
  (** [isinstance(operator, PauliSumOp)] *)
  isinstance_PauliSumOp : Operator → bool;
  (** [str(type(operator))] *)
  type_str : Operator → string;
  (** [operator.primitive] and [operator.coeff] *)
  getattr_primitive : Operator → outcome Primitive;
  getattr_coeff : Operator → outcome Coeff;
  (** the constructors [SparsePauliOp(primitive)] and
      [PauliSumOp(primitive, coeff)] *)
  SparsePauliOp : Primitive → outcome SparsePauli;
  PauliSumOp : SparsePauli → Coeff → outcome Operator;
  (** [runtime.run(program_id=, inputs=, options=, callback=)] *)
  runtime_run : RuntimeService → string → list (string * arg) →
                list (string * value) → option callable → outcome Job;
  (** [job.result()] *)
  job_result : Job → outcome MinimumEigensolverResult;
}.

(** [hasattr(provider, 'runtime')]: [False] when the attribute lookup raises
    [AttributeError]; any other exception propagates. *)
Definition hasattr_runtime `{Qiskit} (provider : Provider) : outcome bool :=
  match getattr_runtime provider with
  | Ok _ => Ok true
  | Raise e =>
      if decide (exn_cls e = AttributeError) then Ok false else Raise e
  end.

(** ** The settings object *)

Section Program.
Context {np : Numpy} `{Qiskit}.

(** The instance attributes of a [VQEProgram]. *)
Record VQEProgram : Type := mkVQEProgram {
  _program_name : string;
  _provider : option Provider;
  _ansatz : QuantumCircuit;
  _optimizer_name : value;
  _optimizer_settings : gmap string value;
  _backend : option Backend;
  _initial_point : value;
  _shots : Z;
  _readout_error_mitigation : bool;
  _callback : option callable;
  (** set only by the [optimizer] setter *)
  _optimizer : option Optimizer;
}.

(** [self.<attribute> = x]: the object with one attribute replaced. *)

Definition with_provider (x : option Provider) (o : VQEProgram) : VQEProgram :=
  mkVQEProgram (_program_name o) x (_ansatz o) (_optimizer_name o)
    (_optimizer_settings o) (_backend o) (_initial_point o) (_shots o)
    (_readout_error_mitigation o) (_callback o) (_optimizer o).

Definition with_ansatz (x : QuantumCircuit) (o : VQEProgram) : VQEProgram :=
  mkVQEProgram (_program_name o) (_provider o) x (_optimizer_name o)
    (_optimizer_settings o) (_backend o) (_initial_point o) (_shots o)
    (_readout_error_mitigation o) (_callback o) (_optimizer o).

Definition with_optimizer_name (x : value) (o : VQEProgram) : VQEProgram :=
  mkVQEProgram (_program_name o) (_provider o) (_ansatz o) x
    (_optimizer_settings o) (_backend o) (_initial_point o) (_shots o)
    (_readout_error_mitigation o) (_callback o) (_optimizer o).

Definition with_optimizer_settings (x : gmap string value) (o : VQEProgram) : VQEProgram :=
  mkVQEProgram (_program_name o) (_provider o) (_ansatz o)
    (_optimizer_name o) x (_backend o) (_initial_point o) (_shots o)
    (_readout_error_mitigation o) (_callback o) (_optimizer o).

Definition with_backend (x : option Backend) (o : VQEProgram) : VQEProgram :=
  mkVQEProgram (_program_name o) (_provider o) (_ansatz o)
    (_optimizer_name o) (_optimizer_settings o) x (_initial_point o)
    (_shots o) (_readout_error_mitigation o) (_callback o) (_optimizer o).

Definition with_initial_point (x : value) (o : VQEProgram) : VQEProgram :=
  mkVQEProgram (_program_name o) (_provider o) (_ansatz o)
    (_optimizer_name o) (_optimizer_settings o) (_backend o) x (_shots o)
    (_readout_error_mitigation o) (_callback o) (_optimizer o).

Definition with_shots (x : Z) (o : VQEProgram) : VQEProgram :=
  mkVQEProgram (_program_name o) (_provider o) (_ansatz o)
    (_optimizer_name o) (_optimizer_settings o) (_backend o)
    (_initial_point o) x (_readout_error_mitigation o) (_callback o)
    (_optimizer o).

Definition with_readout_error_mitigation (x : bool) (o : VQEProgram) : VQEProgram :=
  mkVQEProgram (_program_name o) (_provider o) (_ansatz o)
    (_optimizer_name o) (_optimizer_settings o) (_backend o)
    (_initial_point o) (_shots o) x (_callback o) (_optimizer o).

Definition with_callback (x : option callable) (o : VQEProgram) : VQEProgram :=
  mkVQEProgram (_program_name o) (_provider o) (_ansatz o)
    (_optimizer_name o) (_optimizer_settings o) (_backend o)
    (_initial_point o) (_shots o) (_readout_error_mitigation o) x
    (_optimizer o).

Definition with_optimizer (x : option Optimizer) (o : VQEProgram) : VQEProgram :=
  mkVQEProgram (_program_name o) (_provider o) (_ansatz o)
    (_optimizer_name o) (_optimizer_settings o) (_backend o)
    (_initial_point o) (_shots o) (_readout_error_mitigation o)
    (_callback o) x.

(** A call the program makes on the remote service. *)
Inductive remote_call : Type :=
| RunCall (runtime : RuntimeService) (program_id : string)
          (inputs : list (string * arg)) (options : list (string * value))
          (callback : option callable)
| ResultCall (job : Job).

(** What a method can read and change: the object it is called on, and the
    calls made on the remote service so far. *)
Record state : Type := mkState {
  self : VQEProgram;
  remote : list remote_call;
}.

(** A method body: it ends with a value or an exception, and the changes
    made before an exception stay. *)
Definition M (A : Type) : Type := state → outcome A * state.

Definition ret {A} (a : A) : M A := λ s, (Ok a, s).
Definition raise {A} (e : exn) : M A := λ s, (Raise e, s).
Definition bind {A B} (m : M A) (k : A → M B) : M B :=
  λ s, match m s with
       | (Ok a, s') => k a s'
       | (Raise e, s') => (Raise e, s')
       end.
Definition lift {A} (o : outcome A) : M A := λ s, (o, s).
Definition read {A} (f : VQEProgram → A) : M A := λ s, (Ok (f (self s)), s).
Definition assign (f : VQEProgram → VQEProgram) : M unit :=
  λ s, (Ok tt, mkState (f (self s)) (remote s)).
Definition called {A} (c : remote_call) (o : outcome A) : M A :=
  λ s, (o, mkState (self s) (remote s ++ [c])).

End Program.

Notation "x <~ m ;; k" := (bind m (λ x, k))
  (at level 100, m at next level, right associativity).
Notation "m ;;; k" := (bind m (λ _, k))
  (at level 100, right associativity).

Section Methods.
Context {np : Numpy} `{Qiskit}.

(** *** Properties *)

Definition provider : M (option Provider) := read _provider.

Definition provider_setter (provider : Provider) : M unit :=
  lift (try_except (hasattr_runtime provider)
          (λ c, bool_decide (c = IBMQNotAuthorizedError))
          (λ _, Exn ValueError
                  [Lit "The provider "; Lit (provider_str provider);
                   Lit " does not provide a runtime environment."] None));;;
  assign (with_provider (Some provider)).

Definition program_name : M string := read _program_name.

Definition ansatz : M QuantumCircuit := read _ansatz.

Definition ansatz_setter (ansatz : QuantumCircuit) : M unit :=
  assign (with_ansatz ansatz).

Definition optimizer_name : M value := read _optimizer_name.

Definition optimizer_name_setter (name : value) : M unit :=
  known <~ lift (contains name ["SPSA"; "QN-SPSA"]);;
  if negb known then
    raise (Exn NotImplementedError
             [Lit "Only SPSA and QN-SPSA are currently supported."] None)
  else
    assign (with_optimizer_name name).

Definition optimizer_settings : M (gmap string value) := read _optimizer_settings.

Definition optimizer_settings_setter (settings : gmap string value) : M unit :=
  assign (with_optimizer_settings settings).

(** The property [optimizer]: declared with [@optimizer_settings.setter], so
    it reads the optimizer settings and its setter writes [_optimizer]. *)
Definition optimizer : M (gmap string value) := read _optimizer_settings.

Definition optimizer_setter (optimizer : Optimizer) : M unit :=
  assign (with_optimizer (Some optimizer)).

Definition backend : M (option Backend) := read _backend.

Definition backend_setter (backend : option Backend) : M unit :=
  assign (with_backend backend).

Definition initial_point : M value := read _initial_point.

Definition initial_point_setter (initial_point : value) : M unit :=
  assign (with_initial_point initial_point).

Definition shots : M Z := read _shots.

Definition shots_setter (shots : Z) : M unit :=
  assign (with_shots shots).

Definition readout_error_mitigation : M bool := read _readout_error_mitigation.

Definition readout_error_mitigation_setter (readout_error_mitigation : bool)
  : M unit :=
  assign (with_readout_error_mitigation readout_error_mitigation).

Definition callback : M (option callable) := read _callback.

Definition callback_setter (callback : option callable) : M unit :=
  assign (with_callback callback).

(** [program_name] has no setter: assigning to it raises and changes
    nothing. *)
Definition program_name_setter (name : string) : M unit :=
  raise (Exn AttributeError [Lit "can't set attribute"] None).

(** *** The constructor *)

Definition __init__
    (ansatz : QuantumCircuit) (optimizer_name : value)
    (optimizer_settings : option (gmap string value))
    (initial_point : value) (provider : option Provider)
    (backend : option Backend) (shots : Z) (readout_error_mitigation : bool)
    (callback : option callable) : outcome VQEProgram :=
  let optimizer_settings := default ∅ optimizer_settings in
  let new :=
    mkVQEProgram "vqe" None ansatz VNone optimizer_settings backend
      initial_point shots readout_error_mitigation callback None in
  let body : M unit :=
    (match provider with
     | Some provider => provider_setter provider
     | None => ret tt
     end);;;
    optimizer_name_setter optimizer_name in
  match body (mkState new []) with
  | (Ok _, s) => Ok (self s)
  | (Raise e, _) => Raise e
  end.

(** *** The callback adapter *)

(** The closure [wrapped_callback] of [_wrap_vqe_callback], a function
    object.  It refers to the object and reads [_callback] when it is
    called: [self] is the object at the time of the call.
    [_wrap_vqe_callback] hands out the closure on the object it is called
    on, which is the object at the time of the call as long as nothing is
    assigned in between; a dispatch assigns nothing, and the calls into
    Qiskit do not reach the object. *)
Definition wrapped_callback (self : VQEProgram) : callable :=
  Callable
    (λ args,
       match args with
       | [_; data] =>
           iteration_count <- getitem data 0;;
           params <- getitem data 1;;
           mean <- getitem data 2;;
           accepted <- getitem data 4;;
           metric <- getitem data 5;;
           match _callback self with
           | Some callback =>
               callback [iteration_count; params; mean; accepted; metric]
           | None =>
               Raise (Exn TypeError
                        [Lit "'NoneType' object is not callable"] None)
           end
       | [] =>
           Raise (Exn ValueError
                    [Lit "not enough values to unpack (expected 2, got 0)"] None)
       | [_] =>
           Raise (Exn ValueError
                    [Lit "not enough values to unpack (expected 2, got 1)"] None)
       | _ =>
           Raise (Exn ValueError
                    [Lit "too many values to unpack (expected 2)"] None)
       end)
    true.

(** [if self._callback:] tests the truth value of the callback: [None] and
    a callable whose truth value is [False] give no adapter. *)
Definition _wrap_vqe_callback : M (option callable) :=
  read (λ o, match _callback o with
             | Some callback =>
                 if truth callback then Some (wrapped_callback o) else None
             | None => None
             end).

(** *** Dispatch *)

(** The body of the [try] statement of [compute_minimum_eigenvalue]: the
    operator built from the primitive and the coefficient of [operator]. *)
Definition to_PauliSumOp (operator : Operator) : outcome Operator :=
  primitive <- (p <- getattr_primitive operator;; SparsePauliOp p);;
  coeff <- getattr_coeff operator;;
  PauliSumOp primitive coeff.

Definition compute_minimum_eigenvalue
    (operator : Operator) (aux_operators : option (list (option Operator)))
  : M MinimumEigensolverResult :=
  b <~ backend;;
  match b with
  | None => raise (Exn ValueError [Lit "The backend has not been set."] None)
  | Some _ =>
  p <~ provider;;
  match p with
  | None => raise (Exn ValueError [Lit "The provider has not been set."] None)
  | Some _ =>
  operator' <~
    (if negb (isinstance_PauliSumOp operator) then
       lift (try_except (to_PauliSumOp operator) Exception
               (λ exc, Exn ValueError
                         [Lit "Invalid type of the operator ";
                          Lit (type_str operator);
                          Lit " must be PauliSumOp, or castable to one."]
                         (Some exc)))
     else ret operator);;
  name <~ optimizer_name;;
  settings <~ optimizer_settings;;
  lift (_validate_optimizer_settings name settings);;;
  point <~ initial_point;;
  let initial_point' := if decide (point = VNone) then VStr "random" else point in
  circuit <~ ansatz;;
  name <~ optimizer_name;;
  settings <~ optimizer_settings;;
  n <~ shots;;
  mitigation <~ readout_error_mitigation;;
  let inputs :=
    [ ("operator", ArgOperator operator');
      ("aux_operators", ArgOperators aux_operators);
      ("ansatz", ArgCircuit circuit);
      ("optimizer", ArgValue name);
      ("optimizer_params", ArgDict settings);
      ("initial_point", ArgValue initial_point');
      ("shots", ArgValue (VInt n));
      ("readout_error_mitigation", ArgValue (VBool mitigation)) ] in
  b <~ backend;;
  match b with
  | None =>
      raise (Exn AttributeError
               [Lit "'NoneType' object has no attribute 'name'"] None)
  | Some b =>
  let options := [ ("backend_name", VStr (backend_name b)) ] in
  p <~ provider;;
  match p with
  | None =>
      raise (Exn AttributeError
               [Lit "'NoneType' object has no attribute 'runtime'"] None)
  | Some p =>
  runtime <~ lift (getattr_runtime p);;
  id <~ program_name;;
  cb <~ _wrap_vqe_callback;;
  let run := runtime_run runtime id inputs options cb in
  job <~ called (RunCall runtime id inputs options cb) run;;
  called (ResultCall job) (job_result job)
  end end end end.


(** *** Use of the object *)

(** What a caller can do with a [VQEProgram]: assign to one of its
    properties, or dispatch. *)
Inductive operation : Type :=
| SetProvider (provider : Provider)
| SetProgramName (name : string)
| SetAnsatz (ansatz : QuantumCircuit)
| SetOptimizerName (name : value)
| SetOptimizerSettings (settings : gmap string value)
| SetOptimizer (optimizer : Optimizer)
| SetBackend (backend : option Backend)
| SetInitialPoint (initial_point : value)
| SetShots (shots : Z)
| SetReadoutErrorMitigation (readout_error_mitigation : bool)
| SetCallback (callback : option callable)
| ComputeMinimumEigenvalue (operator : Operator)
                           (aux_operators : option (list (option Operator))).

(** The state after an operation, whether it returned or raised. *)
Definition perform (op : operation) (s : state) : state :=
  match op with
  | SetProvider p => (provider_setter p s).2
  | SetProgramName n => (program_name_setter n s).2
  | SetAnsatz a => (ansatz_setter a s).2
  | SetOptimizerName n => (optimizer_name_setter n s).2
  | SetOptimizerSettings d => (optimizer_settings_setter d s).2
  | SetOptimizer o => (optimizer_setter o s).2
  | SetBackend b => (backend_setter b s).2
  | SetInitialPoint v => (initial_point_setter v s).2
  | SetShots n => (shots_setter n s).2
  | SetReadoutErrorMitigation b => (readout_error_mitigation_setter b s).2
  | SetCallback c => (callback_setter c s).2
  | ComputeMinimumEigenvalue o aux => (compute_minimum_eigenvalue o aux s).2
  end.

Definition perform_all (ops : list operation) (s : state) : state :=
  foldl (λ s op, perform op s) s ops.

(** The exception of an optimizer name that is not supported. *)
Definition unsupported_optimizer : exn :=
  Exn NotImplementedError
    [Lit "Only SPSA and QN-SPSA are currently supported."] None.

(** Whether an assignment of [provider] in the constructor goes through:
    there is none, or [hasattr] returns. *)
Definition provider_accepted (provider : option Provider) : Prop :=
  match provider with
  | None => True
  | Some p => ∃ b, hasattr_runtime p = Ok b
  end.

(** A method body that leaves the object as it found it. *)
Definition keeps_self {A} (m : M A) : Prop := ∀ s, self (m s).2 = self s.

End Methods.

(** ** The test doubles of [test/runtime/fake_vqeruntime.py] *)

Module Fake.

(** Circuits, backends and operators as the test case builds them. *)
Inductive circuit : Type := RealAmplitudes (num_qubits : nat).

Inductive simulator : Type := AerSimulator.

(** [PauliOp] is what [Z ^ I ^ Z] evaluates to; [Plain v] is any object that
    is no operator at all. *)
Inductive operator : Type :=
| PauliOp (primitive : string) (coeff : value)
| PauliSumOp_ (primitive : list string) (coeff : value)
| Plain (v : value).

(** Providers: the fake one of the test module, a provider class that has no
    [runtime] attribute, and an IBMQ account whose [runtime] property raises
    [IBMQNotAuthorizedError]. *)
Inductive provider : Type :=
| FakeRuntimeProvider
| BasicProvider
| UnauthorizedAccount.

Inductive FakeVQERuntime : Type := mkFakeVQERuntime.
Inductive FakeJob : Type := mkFakeJob.

Definition types : QiskitTypes := {|
  QuantumCircuit := circuit;
  Provider := provider;
  Backend := simulator;
  Operator := operator;
  Primitive := string;
  Coeff := value;
  SparsePauli := list string;
  Optimizer := unit;
  RuntimeService := FakeVQERuntime;
  Job := FakeJob;
  MinimumEigensolverResult := value;
|}.
#[local] Existing Instance types.

(** numpy on arrays of strings: the empty array is not true, an array of one
    element is true when this element equals the string, and the truth value
    of a longer array is an error. *)
Definition numpy : Numpy := {|
  array_eq_str s a :=
    match a with
    | [] => Ok false
    | [x] => Ok (bool_decide (x = VStr s))
    | _ =>
        Raise (Exn ValueError
                 [Lit "The truth value of an array with more than one element is ambiguous. Use a.any() or a.all()"]
                 None)
    end;
|}.
#[local] Existing Instance numpy.

(** The classes [FakeVQERuntime.run] tests its arguments against. *)
Inductive pytype : Type :=
| TPauliSumOp | TList | TNoneType | TQuantumCircuit | TNdarray | TStr | TDict
| TInt | TBool.

Definition type_name (t : pytype) : string :=
  match t with
  | TPauliSumOp => "<class 'qiskit.opflow.primitive_ops.pauli_sum_op.PauliSumOp'>"
  | TList => "<class 'list'>"
  | TNoneType => "<class 'NoneType'>"
  | TQuantumCircuit => "<class 'qiskit.circuit.quantumcircuit.QuantumCircuit'>"
  | TNdarray => "<class 'numpy.ndarray'>"
  | TStr => "<class 'str'>"
  | TDict => "<class 'dict'>"
  | TInt => "<class 'int'>"
  | TBool => "<class 'bool'>"
  end.

(** [isinstance(x, t)]; a [bool] is an [int] as well. *)
Definition isinstance (x : arg) (t : pytype) : bool :=
  match x, t with
  | ArgOperator (PauliSumOp_ _ _), TPauliSumOp => true
  | ArgOperators None, TNoneType => true
  | ArgOperators (Some _), TList => true
  | ArgCircuit _, TQuantumCircuit => true
  | ArgDict _, TDict => true
  | ArgValue VNone, TNoneType => true
  | ArgValue (VBool _), (TBool | TInt) => true
  | ArgValue (VInt _), TInt => true
  | ArgValue (VStr _), TStr => true
  | ArgValue (VList _), TList => true
  | ArgValue (VArray _), TNdarray => true
  | _, _ => false
  end.

(** The second argument of [isinstance]: a class, or a tuple of classes. *)
Inductive classinfo : Type :=
| OneClass (t : pytype)
| Classes (ts : list pytype).

(** [isinstance(x, c)] for a class or a tuple of classes [c] *)
Definition isinstance_any (x : arg) (c : classinfo) : bool :=
  match c with
  | OneClass t => isinstance x t
  | Classes ts => existsb (isinstance x) ts
  end.

(** [str(c)]: a class prints as itself, a tuple in parentheses. *)
Definition classinfo_str (c : classinfo) : string :=
  match c with
  | OneClass t => type_name t
  | Classes [t] => "(" ++ type_name t ++ ",)"
  | Classes ts => "(" ++ String.concat ", " (map type_name ts) ++ ")"
  end.

Definition allowed_inputs : list (string * classinfo) :=
  [ ("operator", OneClass TPauliSumOp);
    ("aux_operators", Classes [TList; TNoneType]);
    ("ansatz", OneClass TQuantumCircuit);
    ("initial_point", Classes [TNdarray; TStr]);
    ("optimizer", OneClass TStr);
    ("optimizer_params", OneClass TDict);
    ("shots", OneClass TInt);
    ("readout_error_mitigation", OneClass TBool) ].

Definition allowed_options : list (string * classinfo) :=
  [ ("backend_name", OneClass TStr) ].

(** The loop over [inputs.items()]. *)
Fixpoint check_inputs (items : list (string * arg)) : outcome unit :=
  match items with
  | [] => Ok tt
  | (arg, value) :: items =>
      ts <- dict_get allowed_inputs arg;;
      if negb (isinstance_any value ts) then
        ts <- dict_get allowed_inputs arg;;
        Raise (Exn ValueError
                 [Lit arg; Lit " does not have the right type: ";
                  Lit (classinfo_str ts)] None)
      else check_inputs items
  end.

(** The loop over [options.items()]; its message looks the key up in
    [allowed_inputs]. *)
Fixpoint check_options (items : list (string * value)) : outcome unit :=
  match items with
  | [] => Ok tt
  | (arg, value) :: items =>
      ts <- dict_get allowed_options arg;;
      if negb (isinstance_any (ArgValue value) ts) then
        ts <- dict_get allowed_inputs arg;;
        Raise (Exn ValueError
                 [Lit arg; Lit " does not have the right type: ";
                  Lit (classinfo_str ts)] None)
      else check_options items
  end.

Definition fake_job_id : value := VStr "c919jdjlwinoir1a".

(** [[3, np.arange(10), 1.3]] *)
Definition fake_data : value :=
  VList [ VInt 3;
          VArray (map VInt [0; 1; 2; 3; 4; 5; 6; 7; 8; 9]);
          VFloat 13 (-1) ].

(** [FakeVQERuntime.run] *)
Definition run (rt : FakeVQERuntime) (program_id : string)
    (inputs : list (string * arg)) (options : list (string * value))
    (callback : option callable) : outcome FakeJob :=
  if negb (bool_decide (program_id = "vqe")) then
    Raise (Exn ValueError [Lit "program_id is not vqe."] None)
  else
    _ <- check_inputs inputs;;
    _ <- check_options options;;
    _ <- match callback with
         | Some callback =>
             _ <- try_except (callback [fake_job_id; fake_data]) Exception
                    (λ exc, Exn ValueError [Lit "Callback failed"] (Some exc));;
             Ok tt
         | None => Ok tt
         end;;
    Ok mkFakeJob.

(** [FakeJob.result] *)
Definition result (job : FakeJob) : outcome value := Ok VNone.

Definition qiskit : Qiskit := {|
  getattr_runtime p :=
    match p with
    | FakeRuntimeProvider => Ok mkFakeVQERuntime
    | BasicProvider =>
        Raise (Exn AttributeError
                 [Lit "'BasicProvider' object has no attribute 'runtime'"] None)
    | UnauthorizedAccount =>
        Raise (Exn IBMQNotAuthorizedError
                 [Lit "You are not authorized to use the runtime service."] None)
    end;
  provider_str p :=
    match p with
    | FakeRuntimeProvider => "<FakeRuntimeProvider>"
    | BasicProvider => "<BasicProvider>"
    | UnauthorizedAccount => "<AccountProvider>"
    end;
  backend_name b := "aer_simulator";
  isinstance_PauliSumOp o :=
    match o with PauliSumOp_ _ _ => true | _ => false end;
  type_str o :=
    match o with
    | PauliOp _ _ => "<class 'qiskit.opflow.primitive_ops.pauli_op.PauliOp'>"
    | PauliSumOp_ _ _ => type_name TPauliSumOp
    | Plain _ => "<class 'object'>"
    end;
  getattr_primitive o :=
    match o with
    | PauliOp p _ => Ok p
    | _ => Raise (Exn AttributeError
                    [Lit "object has no attribute 'primitive'"] None)
    end;
  getattr_coeff o :=
    match o with
    | PauliOp _ c | PauliSumOp_ _ c => Ok c
    | Plain _ => Raise (Exn AttributeError
                         [Lit "object has no attribute 'coeff'"] None)
    end;
  SparsePauliOp p := Ok [p];
  PauliSumOp sp c := Ok (PauliSumOp_ sp c);
  runtime_run := run;
  job_result := result;
|}.

(** The settings of [test_standard_case]; a fixed array stands for the
    random initial point. *)
Definition standard_point : value :=
  VArray [VFloat 1 (-1); VFloat 5 (-1); VFloat 9 (-1)].

Definition standard_case (callback : option callable) (point : value)
  : outcome (@VQEProgram types) :=
  @__init__ numpy types qiskit (RealAmplitudes 3) (VStr "SPSA")
    (Some {[ "maxiter" := VInt 100 ]}) point
    (Some FakeRuntimeProvider) (Some AerSimulator) 1024 true callback.

(** The object that [standard_case] builds. *)
Definition program (provider : option provider) (backend : option simulator)
    (point : value) (callback : option callable) : @VQEProgram types :=
  mkVQEProgram "vqe" provider (RealAmplitudes 3) (VStr "SPSA")
    {[ "maxiter" := VInt 100 ]} backend point 1024 true callback None.

(** [Z ^ I ^ Z] *)
Definition ZIZ : operator := PauliOp "ZIZ" (VFloat 10 (-1)).

(** The object of [test_standard_case], before any remote call. *)
Definition standard (point : value) : @state types :=
  mkState (program (Some FakeRuntimeProvider) (Some AerSimulator) point None) [].

(** A caller's callback that answers with the number of values it was
    called with. *)
Definition count_arguments : callable :=
  Callable (λ args, Ok (VInt (Z.of_nat (length args)))) true.

(** A caller's callback that takes exactly four values and answers with
    them. *)
Definition four_values : callable :=
  Callable
    (λ args,
       match args with
       | [_; _; _; _] => Ok (VList args)
       | _ => Raise (Exn TypeError
                       [Lit "callback() takes 4 positional arguments"] None)
       end)
    true.

(** A caller's callback that is an object with [__call__] and with
    [__len__] returning 0, so that its truth value is [False]. *)
Definition falsy_callback : callable := Callable (λ args, Ok VNone) false.

End Fake.

(** * Properties *)

(** ** Python values *)

Section Values.
Context {np : Numpy}.

(** For a value that is no array, [x in l] is membership of [x] among the
    strings of [l]. *)
Lemma contains_spec (x : value) (l : list string) :
  (∀ a, x ≠ VArray a) →
  contains x l = Ok (bool_decide (x ∈ VStr <$> l)).
Proof.
  intros Hx. induction l as [|s l IH]; simpl; [done|].
  assert (str_eq s x = Ok (bool_decide (x = VStr s))) as ->.
  { destruct x; simpl; try done; [|by destruct (Hx a)].
    f_equal. apply bool_decide_ext. split; [by intros ->|by intros [= ->]]. }
  simpl. destruct (bool_decide (x = VStr s)) eqn:Hxs.
  - apply bool_decide_eq_true in Hxs as ->. f_equal. symmetry.
    apply bool_decide_eq_true. left.
  - rewrite IH. f_equal. apply bool_decide_eq_false in Hxs.
    apply bool_decide_ext. rewrite elem_of_cons. tauto.
Qed.

Lemma contains_supported (name : string) :
  name = "SPSA" ∨ name = "QN-SPSA" →
  contains (VStr name) ["SPSA"; "QN-SPSA"] = Ok true.
Proof.
  intros Hn. rewrite contains_spec by discriminate. f_equal.
  apply bool_decide_eq_true. simpl. rewrite !elem_of_cons.
  destruct Hn as [->| ->]; auto.
Qed.

Lemma contains_unsupported (name : value) :
  (∀ a, name ≠ VArray a) → name ≠ VStr "SPSA" → name ≠ VStr "QN-SPSA" →
  contains name ["SPSA"; "QN-SPSA"] = Ok false.
Proof.
  intros Ha H1 H2. rewrite contains_spec by done. f_equal.
  apply bool_decide_eq_false. simpl. rewrite !elem_of_cons, elem_of_nil. tauto.
Qed.

Lemma list_remove_absent (x : value) (l : list value) :
  x ∉ l →
  list_remove x l = Raise (Exn ValueError [Lit "list.remove(x): x not in list"] None).
Proof.
  induction l as [|y l IH]; intros Hx; simpl; [done|].
  apply not_elem_of_cons in Hx as [Hne Hl].
  destruct (decide (y = x)) as [->|_]; [done|].
  by rewrite IH.
Qed.

Lemma list_remove_present (x : value) (l : list value) :
  x ∈ l → ∃ l1 l2 : list value,
    l = (l1 ++ (x :: l2))%list ∧ (x ∉ l1) ∧ list_remove x l = Ok (l1 ++ l2)%list.
Proof.
  induction l as [|y l IH]; intros Hx; [by apply elem_of_nil in Hx|].
  simpl. destruct (decide (y = x)) as [->|Hne].
  - exists [], l. split_and!; [done| apply not_elem_of_nil |done].
  - apply elem_of_cons in Hx as [->|Hx]; [done|].
    destruct (IH Hx) as (l1 & l2 & -> & Hl1 & ->).
    exists (y :: l1), l2. split_and!; [done| |done].
    apply not_elem_of_cons. split; [congruence|done].
Qed.

(** ** Optimizer settings *)

Lemma elem_of_unsupported (settings : gmap string value) (allowed : list value)
    (k : string) :
  k ∈ unsupported settings allowed ↔ k ∈ dom settings ∧ VStr k ∉ allowed.
Proof. unfold unsupported. rewrite elem_of_filter. tauto. Qed.

Lemma list_not_allowed :
  VList [VStr "trust_region"; VStr "second_order"] ∉ allowed_settings.
Proof.
  unfold allowed_settings. intros Hin.
  repeat (apply elem_of_cons in Hin as [Heq|Hin]; [discriminate Heq|]).
  by apply elem_of_nil in Hin.
Qed.

(** For [SPSA] the validation follows the allow-list: it raises exactly when
    some key is outside it, and the error carries the set of these keys. *)
Lemma validate_SPSA (settings : gmap string value) :
  let offending := unsupported settings allowed_settings in
  (offending = ∅ → _validate_optimizer_settings (VStr "SPSA") settings = Ok tt) ∧
  (offending ≠ ∅ →
     _validate_optimizer_settings (VStr "SPSA") settings =
       Raise (Exn ValueError
                [Lit "The following settings are unsupported for the ";
                 Fmt (VStr "SPSA"); Lit " optimizer: "; Keys offending] None)).
Proof.
  intros offending. unfold _validate_optimizer_settings.
  rewrite contains_supported by auto. simpl.
  fold offending. split; intros Hoff.
  - destruct (decide (0 < size offending)%nat) as [Hsz|_]; [|done].
    rewrite Hoff, size_empty in Hsz. lia.
  - destruct (decide (0 < size offending)%nat) as [_|Hsz]; [done|].
    destruct Hoff. apply leibniz_equiv, size_empty_inv. lia.
Qed.

(** C1 (the code departs from the claim).  The claim asks that the
    validation of the settings of an optimizer raises exactly for the keys
    outside that optimizer's allow-list, and that it succeeds for [QN-SPSA]
    with allowed keys only.  The code calls [list.remove] with the list
    [['trust_region', 'second_order']], which is no element of the
    allow-list, so for [QN-SPSA] the validation raises the [ValueError] of
    [list.remove] for every settings dictionary, the empty one and
    [{'maxiter': 100}] included, before any key is looked at. *)
Theorem validate_QN_SPSA_always_raises :
  ∀ settings : gmap string value,
    _validate_optimizer_settings (VStr "QN-SPSA") settings =
      Raise (Exn ValueError [Lit "list.remove(x): x not in list"] None).
Proof.
  intros settings. unfold _validate_optimizer_settings.
  rewrite contains_supported by auto. cbn [obind negb str_eq].
  rewrite bool_decide_eq_true_2 by done. cbn [obind].
  by rewrite (list_remove_absent _ _ list_not_allowed).
Qed.

End Values.

(** ** The state monad of the methods *)

Section Frame.
Context {np : Numpy} `{Qiskit}.

Lemma keeps_self_ret {A} (a : A) : keeps_self (ret a).
Proof. by intros s. Qed.

Lemma keeps_self_raise {A} (e : exn) : keeps_self (@raise _ A e).
Proof. by intros s. Qed.

Lemma keeps_self_lift {A} (o : outcome A) : keeps_self (lift o).
Proof. by intros s. Qed.

Lemma keeps_self_read {A} (f : VQEProgram → A) : keeps_self (read f).
Proof. by intros s. Qed.

Lemma keeps_self_called {A} (c : remote_call) (o : outcome A) :
  keeps_self (called c o).
Proof. by intros s. Qed.

Lemma keeps_self_bind {A B} (m : M A) (k : A → M B) :
  keeps_self m → (∀ a, keeps_self (k a)) → keeps_self (bind m k).
Proof.
  intros Hm Hk s. unfold bind. specialize (Hm s).
  destruct (m s) as [[a|e] s']; simpl in *; [|done].
  by rewrite Hk.
Qed.

Lemma keeps_self_if {A} (b : bool) (m1 m2 : M A) :
  keeps_self m1 → keeps_self m2 → keeps_self (if b then m1 else m2).
Proof. by destruct b. Qed.

End Frame.

Create HintDb frame.
#[export] Hint Resolve keeps_self_ret keeps_self_raise keeps_self_lift
  keeps_self_read keeps_self_called keeps_self_if : frame.
#[export] Hint Extern 2 (keeps_self (bind _ _)) =>
  apply keeps_self_bind; [|intros ?] : frame.
#[export] Hint Extern 3 (keeps_self (match ?x with _ => _ end)) =>
  destruct x : frame.

Section Dispatch.
Context {np : Numpy} `{Qiskit}.

#[local] Arguments to_PauliSumOp : simpl never.
#[local] Arguments _validate_optimizer_settings : simpl never.
#[local] Arguments wrapped_callback : simpl never.

Lemma dispatch_keeps_self operator aux :
  keeps_self (compute_minimum_eigenvalue operator aux).
Proof.
  unfold compute_minimum_eigenvalue, backend, provider, optimizer_name,
    optimizer_settings, initial_point, ansatz, shots,
    readout_error_mitigation, program_name, _wrap_vqe_callback.
  auto 40 with frame.
Qed.

(** Unfolds the monad and the property getters in a dispatch. *)
Ltac dispatch :=
  unfold compute_minimum_eigenvalue, backend, provider, optimizer_name,
    optimizer_settings, initial_point, ansatz, shots,
    readout_error_mitigation, program_name, _wrap_vqe_callback;
  unfold bind, read, lift, ret, raise, called; cbv beta.

Lemma dispatch_no_backend s operator aux :
  _backend (self s) = None →
  compute_minimum_eigenvalue operator aux s =
    (Raise (Exn ValueError [Lit "The backend has not been set."] None), s).
Proof. intros Hb. dispatch. by rewrite Hb. Qed.

Lemma dispatch_no_provider s operator aux b :
  _backend (self s) = Some b → _provider (self s) = None →
  compute_minimum_eigenvalue operator aux s =
    (Raise (Exn ValueError [Lit "The provider has not been set."] None), s).
Proof. intros Hb Hp. dispatch. by rewrite Hb, Hp. Qed.

Lemma dispatch_not_castable s operator aux b p exc :
  _backend (self s) = Some b → _provider (self s) = Some p →
  isinstance_PauliSumOp operator = false →
  to_PauliSumOp operator = Raise exc →
  compute_minimum_eigenvalue operator aux s =
    (Raise (Exn ValueError
              [Lit "Invalid type of the operator "; Lit (type_str operator);
               Lit " must be PauliSumOp, or castable to one."] (Some exc)),
     s).
Proof.
  intros Hb Hp Hi Hc. dispatch. rewrite Hb, Hp, Hi. simpl.
  unfold try_except. by rewrite Hc.
Qed.

(** A dispatch that passes the checks: the operator is a [PauliSumOp] or
    was cast to one, the optimizer settings are valid, and the provider has
    a runtime. *)
Lemma dispatch_submits s operator aux b p operator' runtime :
  _backend (self s) = Some b → _provider (self s) = Some p →
  (if isinstance_PauliSumOp operator then Ok operator
   else to_PauliSumOp operator) = Ok operator' →
  _validate_optimizer_settings (_optimizer_name (self s))
    (_optimizer_settings (self s)) = Ok tt →
  getattr_runtime p = Ok runtime →
  let inputs :=
    [ ("operator", ArgOperator operator');
      ("aux_operators", ArgOperators aux);
      ("ansatz", ArgCircuit (_ansatz (self s)));
      ("optimizer", ArgValue (_optimizer_name (self s)));
      ("optimizer_params", ArgDict (_optimizer_settings (self s)));
      ("initial_point",
       ArgValue (if decide (_initial_point (self s) = VNone)
                 then VStr "random" else _initial_point (self s)));
      ("shots", ArgValue (VInt (_shots (self s))));
      ("readout_error_mitigation",
       ArgValue (VBool (_readout_error_mitigation (self s)))) ] in
  let options := [ ("backend_name", VStr (backend_name b)) ] in
  let cb := match _callback (self s) with
            | Some callback =>
                if truth callback then Some (wrapped_callback (self s))
                else None
            | None => None
            end in
  let id := _program_name (self s) in
  let run := runtime_run runtime id inputs options cb in
  compute_minimum_eigenvalue operator aux s =
    (job <- run;; job_result job,
     mkState (self s)
       (remote s ++ RunCall runtime id inputs options cb ::
          match run with Ok job => [ResultCall job] | Raise _ => [] end)).
Proof.
  intros Hb Hp Hop Hv Hrt inputs options cb id run. dispatch.
  rewrite Hb, Hp.
  destruct (isinstance_PauliSumOp operator); simpl;
    [injection Hop as ->|unfold try_except; rewrite Hop];
    simpl; rewrite Hv; simpl;
    rewrite Hb, Hp, Hrt; simpl; fold inputs options cb id run;
    (destruct run as [job|e]; simpl; [|done]);
    by rewrite <- app_assoc.
Qed.

End Dispatch.

(** ** Setters and the constructor *)

Section Setters.
Context {np : Numpy} `{Qiskit}.

(** The four ways an assignment to [provider] can go. *)
Lemma provider_setter_has_runtime (p : Provider) (s : state) runtime :
  getattr_runtime p = Ok runtime →
  provider_setter p s = (Ok tt, mkState (with_provider (Some p) (self s)) (remote s)).
Proof.
  intros Hrt. unfold provider_setter, bind, lift, assign, hasattr_runtime.
  by rewrite Hrt.
Qed.

Lemma provider_setter_no_attribute (p : Provider) (s : state) e :
  getattr_runtime p = Raise e → exn_cls e = AttributeError →
  provider_setter p s = (Ok tt, mkState (with_provider (Some p) (self s)) (remote s)).
Proof.
  intros Hrt Hcls. unfold provider_setter, bind, lift, assign, hasattr_runtime.
  rewrite Hrt. by destruct (decide (exn_cls e = AttributeError)).
Qed.

Lemma provider_setter_not_authorized (p : Provider) (s : state) e :
  getattr_runtime p = Raise e → exn_cls e = IBMQNotAuthorizedError →
  provider_setter p s =
    (Raise (Exn ValueError
              [Lit "The provider "; Lit (provider_str p);
               Lit " does not provide a runtime environment."] None), s).
Proof.
  intros Hrt Hcls. unfold provider_setter, bind, lift, assign, hasattr_runtime.
  rewrite Hrt. destruct (decide (exn_cls e = AttributeError)) as [Heq|_].
  - rewrite Hcls in Heq. discriminate Heq.
  - simpl. by rewrite Hcls.
Qed.

Lemma provider_setter_other_error (p : Provider) (s : state) e :
  getattr_runtime p = Raise e → exn_cls e ≠ AttributeError →
  exn_cls e ≠ IBMQNotAuthorizedError →
  provider_setter p s = (Raise e, s).
Proof.
  intros Hrt Hne1 Hne2.
  unfold provider_setter, bind, lift, assign, hasattr_runtime.
  rewrite Hrt. destruct (decide (exn_cls e = AttributeError)); [done|].
  simpl. by rewrite bool_decide_eq_false_2.
Qed.

(** An assignment to [provider] that raises changes nothing. *)
Lemma provider_setter_raise (p : Provider) (s s' : state) e :
  provider_setter p s = (Raise e, s') → s' = s.
Proof.
  unfold provider_setter, bind, lift, assign.
  destruct (try_except _ _ _); simpl; congruence.
Qed.

(** An assignment to [provider] that returns has stored the provider. *)
Lemma provider_setter_ok (p : Provider) (s s' : state) u :
  provider_setter p s = (Ok u, s') →
  s' = mkState (with_provider (Some p) (self s)) (remote s).
Proof.
  unfold provider_setter, bind, lift, assign.
  destruct (try_except _ _ _); simpl; congruence.
Qed.

Lemma optimizer_name_setter_unsupported (name : string) (s : state) :
  name ≠ "SPSA" → name ≠ "QN-SPSA" →
  optimizer_name_setter (VStr name) s = (Raise unsupported_optimizer, s).
Proof.
  intros H1 H2. unfold optimizer_name_setter, bind, lift.
  rewrite contains_unsupported; [done|discriminate|congruence..].
Qed.

Lemma optimizer_name_setter_supported (name : string) (s : state) :
  name = "SPSA" ∨ name = "QN-SPSA" →
  optimizer_name_setter (VStr name) s =
    (Ok tt, mkState (with_optimizer_name (VStr name) (self s)) (remote s)).
Proof.
  intros Hn. unfold optimizer_name_setter, bind, lift.
  by rewrite contains_supported.
Qed.

Lemma provider_setter_all_or_nothing_aux (p : Provider) (s : state) :
  provider_setter p s =
    (Ok tt, mkState (with_provider (Some p) (self s)) (remote s)) ∨
  ∃ e, provider_setter p s = (Raise e, s).
Proof.
  destruct (provider_setter p s) as [[[]|e] s'] eqn:Hset.
  - left. by rewrite (provider_setter_ok _ _ _ _ Hset).
  - right. exists e. by rewrite (provider_setter_raise _ _ _ _ Hset).
Qed.

(** An assignment to [optimizer_name] stores a name that passed the
    membership test, or raises and changes nothing. *)
Lemma optimizer_name_setter_cases (name : value) (s : state) :
  (contains name ["SPSA"; "QN-SPSA"] = Ok true ∧
   optimizer_name_setter name s =
     (Ok tt, mkState (with_optimizer_name name (self s)) (remote s))) ∨
  (∃ e, optimizer_name_setter name s = (Raise e, s)).
Proof.
  unfold optimizer_name_setter, bind, lift.
  destruct (contains name _) as [[]|e]; simpl; eauto.
Qed.

Lemma provider_accepted_setter (p : Provider) (s : state) :
  provider_accepted (Some p) →
  provider_setter p s = (Ok tt, mkState (with_provider (Some p) (self s)) (remote s)).
Proof.
  intros [b Hb]. unfold provider_setter, bind, lift, assign.
  by rewrite Hb.
Qed.

End Setters.

(** ** The callback adapter *)

Section Callback.
Context {np : Numpy} `{Qiskit}.

Lemma wrapped_callback_six_fields (o : VQEProgram) (callback : callable)
    (job_id d0 d1 d2 d3 d4 d5 : value) (rest : list value) :
  _callback o = Some callback →
  wrapped_callback o [job_id; VList (d0 :: d1 :: d2 :: d3 :: d4 :: d5 :: rest)] =
    callback [d0; d1; d2; d4; d5].
Proof. intros Hcb. simpl. by rewrite Hcb. Qed.


(** C2 (the code departs from the claim).  The claim, like the docstring of
    the constructor, asks that the caller's callback receives four values:
    evaluation count, parameters, mean and standard deviation.  The adapter
    reads the fields 0, 1, 2, 4 and 5 of the data and calls the caller's
    callback with these five values; data with fewer than six fields, such
    as the five fields of the claim, makes it raise [IndexError] without
    calling the callback. *)
Theorem wrapped_callback_passes_five_values
    (name : string) (provider : option Provider) (ansatz : QuantumCircuit)
    (optimizer_name : value) (settings : gmap string value)
    (backend : option Backend) (point : value) (shots : Z) (mitigation : bool)
    (callback : callable) (optimizer : option Optimizer) :
  let o := mkVQEProgram name provider ansatz optimizer_name settings backend
             point shots mitigation (Some callback) optimizer in
  (∀ job_id iteration params mean f3 f4 f5 rest,
     wrapped_callback o
       [job_id; VList (iteration :: params :: mean :: f3 :: f4 :: f5 :: rest)] =
     callback [iteration; params; mean; f4; f5]) ∧
  (∀ job_id iteration params mean f3 f4,
     wrapped_callback o [job_id; VList [iteration; params; mean; f3; f4]] =
     Raise (Exn IndexError [Lit "list index out of range"] None)).
Proof. intros o. split; intros; reflexivity. Qed.

End Callback.

(** ** The provider *)

Section FakeProvider.
#[local] Existing Instance Fake.types.
#[local] Existing Instance Fake.numpy.
#[local] Existing Instance Fake.qiskit.

(** C3 (the code departs from the claim).  The claim asks that a provider
    without the runtime capability is rejected by the setter.  The setter
    evaluates [hasattr(provider, 'runtime')] and drops its value: for a
    provider that has no [runtime] attribute, [hasattr] answers [False], no
    exception is raised, and the provider is stored. *)
Theorem provider_setter_stores_provider_without_runtime :
  ∀ (o : VQEProgram) (calls : list remote_call),
    hasattr_runtime Fake.BasicProvider = Ok false ∧
    provider_setter Fake.BasicProvider (mkState o calls) =
      (Ok tt, mkState (with_provider (Some Fake.BasicProvider) o) calls).
Proof. intros o calls. split; reflexivity. Qed.

End FakeProvider.

(** ** Dispatch *)

Section DispatchClaims.
Context {np : Numpy} `{Qiskit}.

(** C5.  A dispatch on an object whose backend is unset, or whose provider
    is unset, raises a [ValueError] that says which one is missing; the
    state after it is the state before it, so the list of remote calls has
    not grown. *)
Theorem dispatch_requires_backend_and_provider
    (s : state) (operator : Operator)
    (aux : option (list (option Operator))) :
  _backend (self s) = None ∨ _provider (self s) = None →
  ∃ msg,
    compute_minimum_eigenvalue operator aux s =
      (Raise (Exn ValueError [Lit msg] None), s) ∧
    (_backend (self s) = None → msg = "The backend has not been set.") ∧
    (_backend (self s) ≠ None → msg = "The provider has not been set.").
Proof.
  intros Hunset. destruct (_backend (self s)) as [b|] eqn:Hb.
  - destruct Hunset as [Hb'|Hp]; [discriminate Hb'|].
    exists "The provider has not been set.".
    rewrite (dispatch_no_provider _ _ _ _ Hb Hp). split_and!; auto.
    intros Hb'; discriminate Hb'.
  - exists "The backend has not been set.".
    rewrite (dispatch_no_backend _ _ _ Hb). split_and!; auto.
    intros Hb'; by destruct Hb'.
Qed.

(** C6.  In a dispatch that passes the checks, the [inputs] of the [run]
    call hold the string ['random'] under ['initial_point'] when the
    initial point of the object is [None], and the stored initial point
    itself otherwise. *)
Theorem dispatch_initial_point
    (s : state) (operator operator' : Operator)
    (aux : option (list (option Operator)))
    (b : Backend) (p : Provider) (runtime : RuntimeService) :
  _backend (self s) = Some b → _provider (self s) = Some p →
  (if isinstance_PauliSumOp operator then Ok operator
   else to_PauliSumOp operator) = Ok operator' →
  _validate_optimizer_settings (_optimizer_name (self s))
    (_optimizer_settings (self s)) = Ok tt →
  getattr_runtime p = Ok runtime →
  ∃ id inputs options cb rest,
    remote (compute_minimum_eigenvalue operator aux s).2 =
      (remote s ++ RunCall runtime id inputs options cb :: rest)%list ∧
    (_initial_point (self s) = VNone →
       dict_get inputs "initial_point" = Ok (ArgValue (VStr "random"))) ∧
    (_initial_point (self s) ≠ VNone →
       dict_get inputs "initial_point" = Ok (ArgValue (_initial_point (self s)))).
Proof.
  intros Hb Hp Hop Hv Hrt.
  rewrite (dispatch_submits _ _ _ _ _ _ _ Hb Hp Hop Hv Hrt). simpl.
  eexists _, _, _, _, _. split; [reflexivity|].
  unfold dict_get; simpl.
  destruct (decide (_initial_point (self s) = VNone)); split; intros; done.
Qed.

(** X24.  In a dispatch that passes the checks, on an object whose program
    name is ['vqe'] as the constructor sets it, exactly one [run] call is
    made on the runtime of the provider, with the program id ['vqe'] and
    with the options [{'backend_name': backend.name()}]; [result] is called
    on the job that [run] returns, and what [result] returns is what the
    dispatch returns.  An exception of [run] or [result] is the exception of
    the dispatch. *)
Theorem dispatch_runs_vqe_and_returns_result
    (s : state) (operator operator' : Operator)
    (aux : option (list (option Operator)))
    (b : Backend) (p : Provider) (runtime : RuntimeService) :
  _program_name (self s) = "vqe" →
  _backend (self s) = Some b → _provider (self s) = Some p →
  (if isinstance_PauliSumOp operator then Ok operator
   else to_PauliSumOp operator) = Ok operator' →
  _validate_optimizer_settings (_optimizer_name (self s))
    (_optimizer_settings (self s)) = Ok tt →
  getattr_runtime p = Ok runtime →
  ∃ inputs cb,
    let options := [("backend_name", VStr (backend_name b))] in
    let run := runtime_run runtime "vqe" inputs options cb in
    compute_minimum_eigenvalue operator aux s =
      (job <- run;; job_result job,
       mkState (self s)
         (remote s ++ RunCall runtime "vqe" inputs options cb ::
            match run with Ok job => [ResultCall job] | Raise _ => [] end)).
Proof.
  intros Hname Hb Hp Hop Hv Hrt.
  rewrite (dispatch_submits _ _ _ _ _ _ _ Hb Hp Hop Hv Hrt). simpl.
  rewrite Hname. eexists _, _. reflexivity.
Qed.

(** C4.  With backend and provider set: an operator that is a
    [PauliSumOp] is sent as it is; any other operator is sent as the
    [PauliSumOp] built from [SparsePauliOp(operator.primitive)] and
    [operator.coeff]; and when building it raises, the dispatch raises a
    [ValueError] whose message carries the type of the operator and whose
    cause is the exception raised, and no remote call is made. *)
Theorem dispatch_operator
    (s : state) (operator : Operator)
    (aux : option (list (option Operator)))
    (b : Backend) (p : Provider) :
  _backend (self s) = Some b → _provider (self s) = Some p →
  let sends (o : Operator) :=
    ∀ runtime,
      _validate_optimizer_settings (_optimizer_name (self s))
        (_optimizer_settings (self s)) = Ok tt →
      getattr_runtime p = Ok runtime →
      ∃ id inputs options cb rest,
        remote (compute_minimum_eigenvalue operator aux s).2 =
          (remote s ++ RunCall runtime id inputs options cb :: rest)%list ∧
        dict_get inputs "operator" = Ok (ArgOperator o) in
  (isinstance_PauliSumOp operator = true → sends operator) ∧
  (∀ primitive sparse coeff operator',
     isinstance_PauliSumOp operator = false →
     getattr_primitive operator = Ok primitive →
     SparsePauliOp primitive = Ok sparse →
     getattr_coeff operator = Ok coeff →
     PauliSumOp sparse coeff = Ok operator' →
     sends operator') ∧
  (∀ exc,
     isinstance_PauliSumOp operator = false →
     to_PauliSumOp operator = Raise exc →
     compute_minimum_eigenvalue operator aux s =
       (Raise (Exn ValueError
                 [Lit "Invalid type of the operator "; Lit (type_str operator);
                  Lit " must be PauliSumOp, or castable to one."] (Some exc)),
        s)).
Proof.
  intros Hb Hp sends.
  assert (∀ o, (if isinstance_PauliSumOp operator then Ok operator
                else to_PauliSumOp operator) = Ok o → sends o) as Hsends.
  { intros o Hop runtime Hv Hrt.
    rewrite (dispatch_submits _ _ _ _ _ _ _ Hb Hp Hop Hv Hrt). simpl.
    eexists _, _, _, _, _. split; reflexivity. }
  split_and!.
  - intros Hi. apply Hsends. by rewrite Hi.
  - intros primitive sparse coeff operator' Hi Hpr Hsp Hco Hps.
    apply Hsends. rewrite Hi. unfold to_PauliSumOp.
    rewrite Hpr. simpl. rewrite Hsp. simpl. rewrite Hco. simpl. exact Hps.
  - intros exc Hi Hexc. by apply dispatch_not_castable with b p.
Qed.

(** C10.  A dispatch leaves every attribute of the object as it was,
    whether it returns or raises. *)
Theorem dispatch_leaves_object_unchanged
    (s : state) (operator : Operator)
    (aux : option (list (option Operator))) :
  self (compute_minimum_eigenvalue operator aux s).2 = self s.
Proof. apply dispatch_keeps_self. Qed.

End DispatchClaims.

(** ** The optimizer name and the program name *)

Section Names.
Context {np : Numpy} `{Qiskit}.

Lemma init_accepted ansatz (name : value) settings point provider backend
    shots mitigation callback :
  provider_accepted provider →
  __init__ ansatz name settings point provider backend shots mitigation callback =
    match optimizer_name_setter name
            (mkState (mkVQEProgram "vqe" provider ansatz VNone
                        (default ∅ settings) backend point shots mitigation
                        callback None) []) with
    | (Ok _, s) => Ok (self s)
    | (Raise e, _) => Raise e
    end.
Proof.
  intros Hacc. unfold __init__, bind. destruct provider as [p|]; [|done].
  by rewrite (provider_accepted_setter _ _ Hacc).
Qed.

Lemma init_unsupported (name : string) ansatz settings point provider backend
    shots mitigation callback :
  name ≠ "SPSA" → name ≠ "QN-SPSA" →
  ∃ e, __init__ ansatz (VStr name) settings point provider backend shots
         mitigation callback = Raise e.
Proof.
  intros H1 H2. unfold __init__, bind.
  destruct provider as [p|].
  - destruct (provider_setter p _) as [[u|e] s'] eqn:Hset; [|eauto].
    rewrite (optimizer_name_setter_unsupported _ _ H1 H2). eauto.
  - unfold ret. rewrite (optimizer_name_setter_unsupported _ _ H1 H2). eauto.
Qed.

(** C7.  For a string other than ['SPSA'] and ['QN-SPSA']: the setter of the
    optimizer name raises [NotImplementedError] and leaves the object as it
    was; the constructor returns no object, and the exception it raises is
    that [NotImplementedError] whenever its assignment of the provider did
    not raise before.  For ['SPSA'] and ['QN-SPSA'] the setter stores the
    name, and so does the constructor. *)
Theorem optimizer_name_checked (name : string) :
  (name ≠ "SPSA" → name ≠ "QN-SPSA" →
   (∀ s, optimizer_name_setter (VStr name) s = (Raise unsupported_optimizer, s)) ∧
   (∀ ansatz settings point provider backend shots mitigation callback,
      (∃ e, __init__ ansatz (VStr name) settings point provider backend shots
              mitigation callback = Raise e) ∧
      (provider_accepted provider →
       __init__ ansatz (VStr name) settings point provider backend shots
         mitigation callback = Raise unsupported_optimizer))) ∧
  (name = "SPSA" ∨ name = "QN-SPSA" →
   (∀ s, optimizer_name_setter (VStr name) s =
           (Ok tt, mkState (with_optimizer_name (VStr name) (self s)) (remote s))) ∧
   (∀ ansatz settings point provider backend shots mitigation callback,
      provider_accepted provider →
      __init__ ansatz (VStr name) settings point provider backend shots
        mitigation callback =
        Ok (mkVQEProgram "vqe" provider ansatz (VStr name)
              (default ∅ settings) backend point shots mitigation callback
              None))).
Proof.
  split.
  - intros H1 H2. split; [intros s; by apply optimizer_name_setter_unsupported|].
    intros. split; [by apply init_unsupported|].
    intros Hacc. rewrite (init_accepted _ _ _ _ _ _ _ _ _ Hacc).
    by rewrite optimizer_name_setter_unsupported.
  - intros Hn. split; [intros s; by apply optimizer_name_setter_supported|].
    intros * Hacc. rewrite (init_accepted _ _ _ _ _ _ _ _ _ Hacc).
    by rewrite optimizer_name_setter_supported.
Qed.

Lemma init_program_name ansatz name settings point provider backend shots
    mitigation callback obj :
  __init__ ansatz name settings point provider backend shots mitigation
    callback = Ok obj →
  _program_name obj = "vqe".
Proof.
  unfold __init__, bind.
  destruct provider as [p|].
  - destruct (provider_setter p _) as [[u|e] s'] eqn:Hset; [|done].
    apply provider_setter_ok in Hset as ->.
    destruct (optimizer_name_setter_cases name
                (mkState (with_provider (Some p)
                            (self (mkState (mkVQEProgram "vqe" None ansatz
                               VNone (default ∅ settings) backend point shots
                               mitigation callback None) [])))
                   (remote (mkState (mkVQEProgram "vqe" None ansatz
                               VNone (default ∅ settings) backend point shots
                               mitigation callback None) []))))
      as [[_ ->]|[e ->]]; [|done]. by intros [= <-].
  - unfold ret.
    destruct (optimizer_name_setter_cases name
                (mkState (mkVQEProgram "vqe" None ansatz VNone
                            (default ∅ settings) backend point shots
                            mitigation callback None) []))
      as [[_ ->]|[e ->]]; [|done]. by intros [= <-].
Qed.

Lemma perform_program_name (op : operation) (s : state) :
  _program_name (self (perform op s)) = _program_name (self s).
Proof.
  destruct op; simpl; try done.
  - unfold provider_setter, bind, lift, assign.
    by destruct (try_except _ _ _).
  - by destruct (optimizer_name_setter_cases name s) as [[_ ->]|[e ->]].
  - by rewrite dispatch_keeps_self.
Qed.

Lemma perform_all_program_name (ops : list operation) (s : state) :
  _program_name (self (perform_all ops s)) = _program_name (self s).
Proof.
  revert s. induction ops as [|op ops IH]; intros s; [done|].
  unfold perform_all in *. simpl. by rewrite IH, perform_program_name.
Qed.

(** C9.  The program name of an object that the constructor returned is
    ['vqe'], and it is still ['vqe'] after any sequence of assignments and
    dispatches, whatever they raise; an assignment to [program_name]
    raises [AttributeError] and changes nothing. *)
Theorem program_name_is_vqe
    ansatz name settings point provider backend shots mitigation callback
    (obj : VQEProgram) (ops : list operation) :
  __init__ ansatz name settings point provider backend shots mitigation
    callback = Ok obj →
  let s := perform_all ops (mkState obj []) in
  program_name (mkState obj []) = (Ok "vqe", mkState obj []) ∧
  program_name s = (Ok "vqe", s) ∧
  (∀ n, ∃ e, program_name_setter n s = (Raise e, s) ∧
             exn_cls e = AttributeError).
Proof.
  intros Hinit s. apply init_program_name in Hinit.
  assert (_program_name (self s) = "vqe") as Hs.
  { subst s. by rewrite perform_all_program_name. }
  unfold program_name, read. simpl. rewrite Hinit, Hs. split_and!; [done..|].
  intros n. eexists. split; reflexivity.
Qed.

End Names.

(** ** The theorems at the objects of the test case *)

Section Witnesses.
#[local] Existing Instance Fake.types.
#[local] Existing Instance Fake.numpy.
#[local] Existing Instance Fake.qiskit.

Import Fake.

Lemma dispatch_requires_backend_and_provider_witness :
  let s := mkState (program (Some FakeRuntimeProvider) None VNone None) [] in
  (_backend (self s) = None ∨ _provider (self s) = None) ∧
  ∃ msg,
    compute_minimum_eigenvalue ZIZ None s =
      (Raise (Exn ValueError [Lit msg] None), s) ∧
    (_backend (self s) = None → msg = "The backend has not been set.") ∧
    (_backend (self s) ≠ None → msg = "The provider has not been set.").
Proof.
  intros s. split; [left; reflexivity|].
  apply (dispatch_requires_backend_and_provider s ZIZ None).
  left; reflexivity.
Defined.

Lemma dispatch_initial_point_witness :
  let s := standard VNone in
  (_backend (self s) = Some AerSimulator ∧
   _provider (self s) = Some FakeRuntimeProvider ∧
   to_PauliSumOp ZIZ = Ok (PauliSumOp_ ["ZIZ"] (VFloat 10 (-1))) ∧
   _validate_optimizer_settings (_optimizer_name (self s))
     (_optimizer_settings (self s)) = Ok tt ∧
   getattr_runtime FakeRuntimeProvider = Ok mkFakeVQERuntime) ∧
  ∃ id inputs options cb rest,
    remote (compute_minimum_eigenvalue ZIZ None s).2 =
      (remote s ++ RunCall mkFakeVQERuntime id inputs options cb :: rest)%list ∧
    (_initial_point (self s) = VNone →
       dict_get inputs "initial_point" = Ok (ArgValue (VStr "random"))) ∧
    (_initial_point (self s) ≠ VNone →
       dict_get inputs "initial_point" = Ok (ArgValue (_initial_point (self s)))).
Proof.
  intros s. split; [split_and!; vm_compute; reflexivity|].
  apply (dispatch_initial_point s ZIZ (PauliSumOp_ ["ZIZ"] (VFloat 10 (-1)))
           None AerSimulator FakeRuntimeProvider mkFakeVQERuntime);
    vm_compute; reflexivity.
Defined.

Lemma dispatch_runs_vqe_and_returns_result_witness :
  let s := standard standard_point in
  (_program_name (self s) = "vqe" ∧
   _backend (self s) = Some AerSimulator ∧
   _provider (self s) = Some FakeRuntimeProvider ∧
   to_PauliSumOp ZIZ = Ok (PauliSumOp_ ["ZIZ"] (VFloat 10 (-1))) ∧
   _validate_optimizer_settings (_optimizer_name (self s))
     (_optimizer_settings (self s)) = Ok tt ∧
   getattr_runtime FakeRuntimeProvider = Ok mkFakeVQERuntime) ∧
  ∃ inputs cb,
    let options := [("backend_name", VStr "aer_simulator")] in
    let run := runtime_run mkFakeVQERuntime "vqe" inputs options cb in
    compute_minimum_eigenvalue ZIZ None s =
      (job <- run;; job_result job,
       mkState (self s)
         (remote s ++ RunCall mkFakeVQERuntime "vqe" inputs options cb ::
            match run with Ok job => [ResultCall job] | Raise _ => [] end)).
Proof.
  intros s. split; [split_and!; vm_compute; reflexivity|].
  refine (dispatch_runs_vqe_and_returns_result s ZIZ
            (PauliSumOp_ ["ZIZ"] (VFloat 10 (-1)))
            None AerSimulator FakeRuntimeProvider mkFakeVQERuntime
            _ _ _ _ _ _);
    vm_compute; reflexivity.
Defined.

Lemma dispatch_operator_witness :
  let s := standard VNone in
  (_backend (self s) = Some AerSimulator ∧
   _provider (self s) = Some FakeRuntimeProvider ∧
   isinstance_PauliSumOp ZIZ = false ∧
   to_PauliSumOp ZIZ = Ok (PauliSumOp_ ["ZIZ"] (VFloat 10 (-1)))) ∧
  (∃ id inputs options cb rest,
     remote (compute_minimum_eigenvalue ZIZ None s).2 =
       (remote s ++ RunCall mkFakeVQERuntime id inputs options cb :: rest)%list ∧
     dict_get inputs "operator" =
       Ok (ArgOperator (PauliSumOp_ ["ZIZ"] (VFloat 10 (-1))))) ∧
  (∃ exc,
     compute_minimum_eigenvalue (Plain VNone) None s =
       (Raise (Exn ValueError
                 [Lit "Invalid type of the operator "; Lit "<class 'object'>";
                  Lit " must be PauliSumOp, or castable to one."] (Some exc)),
        s)).
Proof.
  intros s. split; [split_and!; reflexivity|]. split.
  - pose proof (dispatch_operator s ZIZ None AerSimulator FakeRuntimeProvider
                  eq_refl eq_refl) as (_ & Hcast & _).
    apply (Hcast "ZIZ" ["ZIZ"] (VFloat 10 (-1))
             (PauliSumOp_ ["ZIZ"] (VFloat 10 (-1)))
             eq_refl eq_refl eq_refl eq_refl eq_refl mkFakeVQERuntime);
      vm_compute; reflexivity.
  - pose proof (dispatch_operator s (Plain VNone) None AerSimulator
                  FakeRuntimeProvider eq_refl eq_refl) as (_ & _ & Hfail).
    eexists. apply Hfail; reflexivity.
Defined.

Lemma optimizer_name_checked_witness :
  (∀ s, optimizer_name_setter (VStr "ADAM") s = (Raise unsupported_optimizer, s)) ∧
  (∀ s, optimizer_name_setter (VStr "QN-SPSA") s =
          (Ok tt, mkState (with_optimizer_name (VStr "QN-SPSA") (self s)) (remote s))) ∧
  standard_case None VNone =
    Ok (program (Some FakeRuntimeProvider) (Some AerSimulator) VNone None).
Proof.
  split_and!.
  - apply (proj1 (optimizer_name_checked "ADAM")); discriminate.
  - apply (proj2 (optimizer_name_checked "QN-SPSA")). right; reflexivity.
  - apply (proj2 (optimizer_name_checked "SPSA")); [left; reflexivity|].
    exists true. reflexivity.
Defined.

Lemma program_name_is_vqe_witness :
  let ops := [SetShots 10; SetProgramName "qaoa"; SetProvider BasicProvider;
              SetOptimizerName (VStr "ADAM");
              ComputeMinimumEigenvalue ZIZ None] in
  let s := perform_all ops (standard VNone) in
  standard_case None VNone = Ok (self (standard VNone)) ∧
  program_name (standard VNone) = (Ok "vqe", standard VNone) ∧
  program_name s = (Ok "vqe", s) ∧
  (∀ n, ∃ e, program_name_setter n s = (Raise e, s) ∧
             exn_cls e = AttributeError).
Proof.
  intros ops s.
  assert (standard_case None VNone = Ok (self (standard VNone))) as Hinit
    by reflexivity.
  split; [exact Hinit|].
  exact (program_name_is_vqe _ _ _ _ _ _ _ _ _ _ ops Hinit).
Defined.

(** The test case: the dispatch returns what [FakeJob.result] returns. *)
Example test_standard_case :
  (compute_minimum_eigenvalue ZIZ None (standard standard_point)).1 = Ok VNone.
Proof. vm_compute. reflexivity. Qed.

(** With a callback set, the fake runtime calls the adapter with its three
    fields of data, and the dispatch fails. *)
Example test_standard_case_with_callback :
  (compute_minimum_eigenvalue ZIZ None
     (mkState (program (Some FakeRuntimeProvider) (Some AerSimulator)
                 standard_point (Some four_values)) [])).1 =
    Raise (Exn ValueError [Lit "Callback failed"]
             (Some (Exn IndexError [Lit "list index out of range"] None))).
Proof. vm_compute. reflexivity. Qed.

(** With six fields of data, a callback that takes four values is called
    with five. *)
Example wrapped_callback_calls_with_five :
  let o := program None None VNone in
  let data := VList [VInt 3; VArray [VInt 0; VInt 1]; VFloat 13 (-1);
                     VFloat 1 (-1); VBool true; VFloat 5 (-1)] in
  wrapped_callback (o (Some count_arguments)) [fake_job_id; data] = Ok (VInt 5) ∧
  wrapped_callback (o (Some four_values)) [fake_job_id; data] =
    Raise (Exn TypeError [Lit "callback() takes 4 positional arguments"] None).
Proof. split; reflexivity. Qed.

(** An account that is not authorized for the runtime is rejected. *)
Example provider_setter_unauthorized (s : state) :
  provider_setter UnauthorizedAccount s =
    (Raise (Exn ValueError
              [Lit "The provider "; Lit "<AccountProvider>";
               Lit " does not provide a runtime environment."] None), s).
Proof. reflexivity. Qed.

(** A key outside the allow-list of [SPSA] is named in the error. *)
Example validate_SPSA_unknown_key :
  _validate_optimizer_settings (VStr "SPSA")
    {[ "maxiter" := VInt 100; "momentum" := VFloat 9 (-1) ]} =
    Raise (Exn ValueError
             [Lit "The following settings are unsupported for the ";
              Fmt (VStr "SPSA"); Lit " optimizer: "; Keys {[ "momentum" ]}] None).
Proof. vm_compute. reflexivity. Qed.

End Witnesses.

(** * Further properties *)

(** ** Validation of the optimizer settings, continued *)

Section MoreValidation.
Context {np : Numpy}.

Lemma validate_QN_SPSA_raises (settings : gmap string value) :
  ∃ e, _validate_optimizer_settings (VStr "QN-SPSA") settings = Raise e.
Proof.
  unfold _validate_optimizer_settings.
  rewrite contains_supported by auto. cbn [obind negb str_eq].
  rewrite bool_decide_eq_true_2 by done. cbn [obind].
  rewrite (list_remove_absent _ _ list_not_allowed). simpl. eauto.
Qed.

(** X1.  For [SPSA] the validation returns exactly when every key of the
    settings is one of the twelve allowed names; when it raises, the
    exception is a [ValueError] whose message carries the set of the keys
    that are not allowed, no more and no fewer. *)
Theorem validate_SPSA_allow_list (settings : gmap string value) :
  (_validate_optimizer_settings (VStr "SPSA") settings = Ok tt ↔
   ∀ k, k ∈ dom settings → VStr k ∈ allowed_settings) ∧
  (∀ e, _validate_optimizer_settings (VStr "SPSA") settings = Raise e →
     ∃ X : gset string,
       e = Exn ValueError
             [Lit "The following settings are unsupported for the ";
              Fmt (VStr "SPSA"); Lit " optimizer: "; Keys X] None ∧
       X ≠ ∅ ∧
       ∀ k, k ∈ X ↔ k ∈ dom settings ∧ VStr k ∉ allowed_settings).
Proof.
  destruct (validate_SPSA settings) as [Hok Hbad]. simpl in Hok, Hbad.
  destruct (decide (unsupported settings allowed_settings = ∅)) as [He|Hne].
  - split.
    + split; [|intros _; by apply Hok].
      intros _ k Hk. destruct (decide (VStr k ∈ allowed_settings)) as [|Hn]; [done|].
      assert (k ∈ unsupported settings allowed_settings) as Hin
        by by apply elem_of_unsupported.
      rewrite He in Hin. by apply not_elem_of_empty in Hin.
    + intros e. by rewrite (Hok He).
  - split.
    + rewrite (Hbad Hne). split; [done|]. intros Hall. destruct Hne.
      apply set_eq. intros k. rewrite elem_of_unsupported.
      split; [intros [Hk Hn]; destruct Hn; by apply Hall|].
      intros Hk. by apply not_elem_of_empty in Hk.
    + intros e. rewrite (Hbad Hne). intros [= <-].
      eexists. split_and!; [done|done|]. intros k. apply elem_of_unsupported.
Qed.

(** X2.  For a name that is no numpy array and is neither the string
    ['SPSA'] nor the string ['QN-SPSA'] ([None] and every other string
    included) the validation raises [NotImplementedError], whatever the
    settings are.  For an array the outcome is that of numpy's comparison
    with the two strings. *)
Theorem validate_unsupported_name (name : value) (settings : gmap string value) :
  (∀ a, name ≠ VArray a) →
  name ≠ VStr "SPSA" → name ≠ VStr "QN-SPSA" →
  _validate_optimizer_settings name settings = Raise unsupported_optimizer.
Proof.
  intros Ha Hn1 Hn2. unfold _validate_optimizer_settings.
  by rewrite contains_unsupported.
Qed.

End MoreValidation.

(** ** Dispatch, continued *)

Section DispatchFailures.
Context {np : Numpy} `{Qiskit}.

#[local] Arguments to_PauliSumOp : simpl never.
#[local] Arguments _validate_optimizer_settings : simpl never.
#[local] Arguments wrapped_callback : simpl never.

Ltac unfold_dispatch :=
  unfold compute_minimum_eigenvalue, backend, provider, optimizer_name,
    optimizer_settings, initial_point, ansatz, shots,
    readout_error_mitigation, program_name, _wrap_vqe_callback;
  unfold bind, read, lift, ret, raise, called; cbv beta.

Lemma dispatch_invalid_settings s operator aux b p operator' e :
  _backend (self s) = Some b → _provider (self s) = Some p →
  (if isinstance_PauliSumOp operator then Ok operator
   else to_PauliSumOp operator) = Ok operator' →
  _validate_optimizer_settings (_optimizer_name (self s))
    (_optimizer_settings (self s)) = Raise e →
  compute_minimum_eigenvalue operator aux s = (Raise e, s).
Proof.
  intros Hb Hp Hop Hv. unfold_dispatch. rewrite Hb, Hp.
  destruct (isinstance_PauliSumOp operator); simpl;
    [injection Hop as ->|unfold try_except; rewrite Hop];
    simpl; by rewrite Hv.
Qed.

Lemma dispatch_no_runtime s operator aux b p operator' e :
  _backend (self s) = Some b → _provider (self s) = Some p →
  (if isinstance_PauliSumOp operator then Ok operator
   else to_PauliSumOp operator) = Ok operator' →
  _validate_optimizer_settings (_optimizer_name (self s))
    (_optimizer_settings (self s)) = Ok tt →
  getattr_runtime p = Raise e →
  compute_minimum_eigenvalue operator aux s = (Raise e, s).
Proof.
  intros Hb Hp Hop Hv Hrt. unfold_dispatch. rewrite Hb, Hp.
  destruct (isinstance_PauliSumOp operator); simpl;
    [injection Hop as ->|unfold try_except; rewrite Hop];
    simpl; rewrite Hv; simpl; by rewrite Hb, Hp, Hrt.
Qed.

(** The ways a dispatch can go, by what it finds. *)
Lemma dispatch_cases s operator aux :
  (∃ e, compute_minimum_eigenvalue operator aux s = (Raise e, s)) ∨
  (∃ b p operator' runtime,
     _backend (self s) = Some b ∧ _provider (self s) = Some p ∧
     (if isinstance_PauliSumOp operator then Ok operator
      else to_PauliSumOp operator) = Ok operator' ∧
     _validate_optimizer_settings (_optimizer_name (self s))
       (_optimizer_settings (self s)) = Ok tt ∧
     getattr_runtime p = Ok runtime).
Proof.
  destruct (_backend (self s)) as [b|] eqn:Hb;
    [|left; rewrite dispatch_no_backend; eauto].
  destruct (_provider (self s)) as [p|] eqn:Hp;
    [|left; erewrite dispatch_no_provider; eauto].
  destruct (if isinstance_PauliSumOp operator then Ok operator
            else to_PauliSumOp operator) as [operator'|exc] eqn:Hop.
  - destruct (_validate_optimizer_settings (_optimizer_name (self s))
                (_optimizer_settings (self s))) as [[]|e] eqn:Hv;
      [|left; erewrite dispatch_invalid_settings; eauto].
    destruct (getattr_runtime p) as [runtime|e] eqn:Hrt;
      [|left; erewrite dispatch_no_runtime; eauto].
    right. eexists _, _, _, _. eauto.
  - left. destruct (isinstance_PauliSumOp operator) eqn:Hi; [discriminate Hop|].
    erewrite dispatch_not_castable; eauto.
Qed.

(** X3.  A dispatch whose optimizer settings do not pass the validation
    raises the exception of the validation; the object is as before and no
    call is made on the remote service. *)
Theorem dispatch_rejects_invalid_settings
    (s : state) (operator operator' : Operator)
    (aux : option (list (option Operator)))
    (b : Backend) (p : Provider) (e : exn) :
  _backend (self s) = Some b → _provider (self s) = Some p →
  (if isinstance_PauliSumOp operator then Ok operator
   else to_PauliSumOp operator) = Ok operator' →
  _validate_optimizer_settings (_optimizer_name (self s))
    (_optimizer_settings (self s)) = Raise e →
  compute_minimum_eigenvalue operator aux s = (Raise e, s).
Proof. apply dispatch_invalid_settings. Qed.

(** X4.  On an object whose optimizer name is ['QN-SPSA'] every dispatch
    raises, whatever the settings, the operator, the backend and the
    provider are, and no call is made on the remote service. *)
Theorem dispatch_QN_SPSA_never_runs
    (s : state) (operator : Operator)
    (aux : option (list (option Operator))) :
  _optimizer_name (self s) = VStr "QN-SPSA" →
  ∃ e, compute_minimum_eigenvalue operator aux s = (Raise e, s).
Proof.
  intros Hname.
  destruct (dispatch_cases s operator aux)
    as [Hraise|(b & p & o' & rt & _ & _ & _ & Hv & _)]; [done|].
  rewrite Hname in Hv.
  destruct (validate_QN_SPSA_raises (_optimizer_settings (self s))) as [e He].
  rewrite He in Hv. discriminate Hv.
Qed.

(** X5.  A dispatch on an object whose provider raises when its [runtime]
    attribute is read, as a provider without that attribute does, raises
    that exception after all checks have passed; no call is made on the
    remote service. *)
Theorem dispatch_without_runtime_attribute
    (s : state) (operator operator' : Operator)
    (aux : option (list (option Operator)))
    (b : Backend) (p : Provider) (e : exn) :
  _backend (self s) = Some b → _provider (self s) = Some p →
  (if isinstance_PauliSumOp operator then Ok operator
   else to_PauliSumOp operator) = Ok operator' →
  _validate_optimizer_settings (_optimizer_name (self s))
    (_optimizer_settings (self s)) = Ok tt →
  getattr_runtime p = Raise e →
  compute_minimum_eigenvalue operator aux s = (Raise e, s).
Proof. apply dispatch_no_runtime. Qed.

(** X6.  Every dispatch adds to the calls on the remote service nothing,
    or one [run] call, or one [run] call followed by one [result] call on
    the job that this [run] returned; the program id of the [run] call is
    the program name of the object. *)
Theorem dispatch_calls_at_most_once
    (s : state) (operator : Operator)
    (aux : option (list (option Operator))) :
  let s' := (compute_minimum_eigenvalue operator aux s).2 in
  remote s' = remote s ∨
  ∃ runtime inputs options cb,
    let run := RunCall runtime (_program_name (self s)) inputs options cb in
    (remote s' = (remote s ++ [run])%list ∧
     ∃ e, runtime_run runtime (_program_name (self s)) inputs options cb = Raise e) ∨
    (∃ job,
       remote s' = (remote s ++ [run; ResultCall job])%list ∧
       runtime_run runtime (_program_name (self s)) inputs options cb = Ok job).
Proof.
  intros s'. subst s'.
  destruct (dispatch_cases s operator aux)
    as [[e He]|(b & p & o' & rt & Hb & Hp & Hop & Hv & Hrt)].
  - left. by rewrite He.
  - right. rewrite (dispatch_submits _ _ _ _ _ _ _ Hb Hp Hop Hv Hrt). simpl.
    match goal with
    | |- context [runtime_run ?r ?i ?a ?b ?c] =>
        destruct (runtime_run r i a b c) as [job|e] eqn:Hrun;
        exists r, a, b, c
    end; simpl.
    + right. exists job. by split.
    + left. split; [done|eauto].
Qed.

(** X7.  In a dispatch that passes the checks, the [inputs] of the [run]
    call have the eight keys of the source in their order, and hold the
    auxiliary operators of the call and the ansatz, optimizer name,
    optimizer settings, shots and mitigation flag of the object as they are
    stored. *)
Theorem dispatch_inputs
    (s : state) (operator operator' : Operator)
    (aux : option (list (option Operator)))
    (b : Backend) (p : Provider) (runtime : RuntimeService) :
  _backend (self s) = Some b → _provider (self s) = Some p →
  (if isinstance_PauliSumOp operator then Ok operator
   else to_PauliSumOp operator) = Ok operator' →
  _validate_optimizer_settings (_optimizer_name (self s))
    (_optimizer_settings (self s)) = Ok tt →
  getattr_runtime p = Ok runtime →
  ∃ id inputs options cb rest,
    remote (compute_minimum_eigenvalue operator aux s).2 =
      (remote s ++ RunCall runtime id inputs options cb :: rest)%list ∧
    inputs.*1 =
      ["operator"; "aux_operators"; "ansatz"; "optimizer"; "optimizer_params";
       "initial_point"; "shots"; "readout_error_mitigation"] ∧
    dict_get inputs "aux_operators" = Ok (ArgOperators aux) ∧
    dict_get inputs "ansatz" = Ok (ArgCircuit (_ansatz (self s))) ∧
    dict_get inputs "optimizer" = Ok (ArgValue (_optimizer_name (self s))) ∧
    dict_get inputs "optimizer_params" =
      Ok (ArgDict (_optimizer_settings (self s))) ∧
    dict_get inputs "shots" = Ok (ArgValue (VInt (_shots (self s)))) ∧
    dict_get inputs "readout_error_mitigation" =
      Ok (ArgValue (VBool (_readout_error_mitigation (self s)))).
Proof.
  intros Hb Hp Hop Hv Hrt.
  rewrite (dispatch_submits _ _ _ _ _ _ _ Hb Hp Hop Hv Hrt). simpl.
  eexists _, _, _, _, _. split; [reflexivity|]. split_and!; reflexivity.
Qed.

(** X8.  In a dispatch that passes the checks, the [callback] of the [run]
    call is [None] exactly when the callback of the object is [None] or has
    the truth value [False]; otherwise it is the adapter, which calls the
    callback of the object. *)
Theorem dispatch_callback
    (s : state) (operator operator' : Operator)
    (aux : option (list (option Operator)))
    (b : Backend) (p : Provider) (runtime : RuntimeService) :
  _backend (self s) = Some b → _provider (self s) = Some p →
  (if isinstance_PauliSumOp operator then Ok operator
   else to_PauliSumOp operator) = Ok operator' →
  _validate_optimizer_settings (_optimizer_name (self s))
    (_optimizer_settings (self s)) = Ok tt →
  getattr_runtime p = Ok runtime →
  ∃ id inputs options cb rest,
    remote (compute_minimum_eigenvalue operator aux s).2 =
      (remote s ++ RunCall runtime id inputs options cb :: rest)%list ∧
    (cb = None ↔
     _callback (self s) = None ∨
     ∃ c, _callback (self s) = Some c ∧ truth c = false) ∧
    (∀ adapter, cb = Some adapter → adapter = wrapped_callback (self s)).
Proof.
  intros Hb Hp Hop Hv Hrt.
  rewrite (dispatch_submits _ _ _ _ _ _ _ Hb Hp Hop Hv Hrt). simpl.
  eexists _, _, _, _, _. split; [reflexivity|].
  destruct (_callback (self s)) as [c|]; [destruct (truth c) eqn:Ht|].
  - split; [|by intros adapter [= <-]].
    split; [done|]. intros [Hn|(c' & [= <-] & Hf)]; congruence.
  - split; [|done]. split; [|done]. intros _. right. eauto.
  - split; [|done]. split; [|done]. intros _. by left.
Qed.

End DispatchFailures.

(** ** Assignments and the constructor, continued *)

Section Assignments.
Context {np : Numpy} `{Qiskit}.

(** X9.  An assignment to [provider] either returns, and then the provider
    is stored while every other attribute and the calls on the remote
    service are as before, or raises, and then nothing has changed. *)
Theorem provider_setter_all_or_nothing (p : Provider) (s : state) :
  provider_setter p s =
    (Ok tt, mkState (with_provider (Some p) (self s)) (remote s)) ∨
  ∃ e, provider_setter p s = (Raise e, s).
Proof.
  destruct (provider_setter p s) as [[[]|e] s'] eqn:Hset.
  - left. by rewrite (provider_setter_ok _ _ _ _ Hset).
  - right. exists e. by rewrite (provider_setter_raise _ _ _ _ Hset).
Qed.

(** X10.  A provider whose [runtime] property raises
    [IBMQNotAuthorizedError] is rejected by the setter with a [ValueError]
    whose message carries [str(provider)]; the object is as before. *)
Theorem provider_setter_rejects_unauthorized
    (p : Provider) (s : state) (e : exn) :
  getattr_runtime p = Raise e → exn_cls e = IBMQNotAuthorizedError →
  provider_setter p s =
    (Raise (Exn ValueError
              [Lit "The provider "; Lit (provider_str p);
               Lit " does not provide a runtime environment."] None), s).
Proof. apply provider_setter_not_authorized. Qed.

(** X11.  The constructor assigns the provider before the optimizer name:
    with a provider whose [runtime] property raises
    [IBMQNotAuthorizedError] it raises the [ValueError] of the provider
    setter, whatever the optimizer name is. *)
Theorem init_checks_provider_first
    (p : Provider) (e : exn) ansatz (name : value) settings point backend
    shots mitigation callback :
  getattr_runtime p = Raise e → exn_cls e = IBMQNotAuthorizedError →
  __init__ ansatz name settings point (Some p) backend shots mitigation
    callback =
    Raise (Exn ValueError
             [Lit "The provider "; Lit (provider_str p);
              Lit " does not provide a runtime environment."] None).
Proof.
  intros Hrt Hcls. unfold __init__, bind.
  by rewrite (provider_setter_not_authorized _ _ _ Hrt Hcls).
Qed.

Local Abbreviation supported name :=
  (contains name ["SPSA"; "QN-SPSA"] = Ok true).

Lemma supported_string (name : value) :
  (∀ a, name ≠ VArray a) → supported name →
  name = VStr "SPSA" ∨ name = VStr "QN-SPSA".
Proof.
  intros Ha. rewrite contains_spec by done. intros [= Hin].
  apply bool_decide_eq_true in Hin. simpl in Hin.
  rewrite !elem_of_cons, elem_of_nil in Hin. tauto.
Qed.

Lemma init_supported ansatz name settings point provider backend shots
    mitigation callback obj :
  __init__ ansatz name settings point provider backend shots mitigation
    callback = Ok obj →
  supported (_optimizer_name obj).
Proof.
  unfold __init__, bind.
  destruct provider as [p|].
  - destruct (provider_setter p _) as [[u|e] s'] eqn:Hset; [|done].
    apply provider_setter_ok in Hset as ->.
    match goal with
    | |- context [optimizer_name_setter name ?s0] =>
        destruct (optimizer_name_setter_cases name s0) as [[Hc ->]|[e ->]]
    end; [|done]. intros [= <-]. exact Hc.
  - unfold ret.
    match goal with
    | |- context [optimizer_name_setter name ?s0] =>
        destruct (optimizer_name_setter_cases name s0) as [[Hc ->]|[e ->]]
    end; [|done]. intros [= <-]. exact Hc.
Qed.

Lemma perform_supported (op : operation) (s : state) :
  supported (_optimizer_name (self s)) →
  supported (_optimizer_name (self (perform op s))).
Proof.
  intros Hs.
  destruct op as [p| | |name| | | | | | | |operator aux_operators];
    cbn [perform]; try exact Hs.
  - destruct (provider_setter_all_or_nothing_aux p s) as [->|[e ->]];
      exact Hs.
  - destruct (optimizer_name_setter_cases name s) as [[Hc ->]|[e ->]];
      [exact Hc|exact Hs].
  - rewrite dispatch_keeps_self. exact Hs.
Qed.

(** X12.  The optimizer name of an object that the constructor returned
    passes the membership test of the setter, and so it does after any
    sequence of assignments and dispatches, whatever they raise: unless the
    name is a numpy array, which the test lets through when numpy's
    comparison is true, it is ['SPSA'] or ['QN-SPSA']. *)
Theorem optimizer_name_stays_supported
    ansatz name settings point provider backend shots mitigation callback
    (obj : VQEProgram) (ops : list operation) :
  __init__ ansatz name settings point provider backend shots mitigation
    callback = Ok obj →
  let s := perform_all ops (mkState obj []) in
  contains (_optimizer_name (self s)) ["SPSA"; "QN-SPSA"] = Ok true ∧
  ((∀ a, _optimizer_name (self s) ≠ VArray a) →
   _optimizer_name (self s) = VStr "SPSA" ∨
   _optimizer_name (self s) = VStr "QN-SPSA").
Proof.
  intros Hinit s. apply init_supported in Hinit.
  assert (∀ s0, supported (_optimizer_name (self s0)) →
                supported (_optimizer_name (self (perform_all ops s0)))) as Hall.
  { induction ops as [|op ops IH]; intros s0 Hs0; [done|].
    unfold perform_all in *. simpl. by apply IH, perform_supported. }
  assert (supported (_optimizer_name (self s))) as Hs by by apply Hall.
  split; [done|]. intros Ha. by apply supported_string.
Qed.

(** X13.  Only a dispatch calls the remote service: every assignment, the
    rejected ones included, leaves the calls on the remote service as they
    were. *)
Theorem assignments_make_no_remote_call (op : operation) (s : state) :
  (∀ operator aux, op ≠ ComputeMinimumEigenvalue operator aux) →
  remote (perform op s) = remote s.
Proof.
  intros Hop. destruct op; simpl; try done.
  - unfold provider_setter, bind, lift, assign.
    by destruct (try_except _ _ _).
  - by destruct (optimizer_name_setter_cases name s) as [[_ ->]|[e ->]].
  - by destruct (Hop operator aux_operators).
Qed.

(** X14.  The value assigned to [optimizer] is read by nothing: after the
    assignment, reading [optimizer] returns the optimizer settings, which
    are as before, and a dispatch returns and calls the remote service as
    it would have without the assignment. *)
Theorem optimizer_assignment_is_not_read
    (x : Optimizer) (s : state) (operator : Operator)
    (aux : option (list (option Operator))) :
  let s' := (optimizer_setter x s).2 in
  (optimizer s').1 = Ok (_optimizer_settings (self s)) ∧
  (optimizer_settings s').1 = Ok (_optimizer_settings (self s)) ∧
  (compute_minimum_eigenvalue operator aux s').1 =
    (compute_minimum_eigenvalue operator aux s).1 ∧
  remote (compute_minimum_eigenvalue operator aux s').2 =
    remote (compute_minimum_eigenvalue operator aux s).2.
Proof.
  intros s'. split_and!; [done|done|..].
  all: assert (∃ r l,
         compute_minimum_eigenvalue operator aux s =
           (r, mkState (self s) (remote s ++ l)) ∧
         compute_minimum_eigenvalue operator aux s' =
           (r, mkState (self s') (remote s' ++ l))) as (r & l & -> & ->);
    [|done].
  all: destruct s as [o calls]; subst s'; simpl.
  all: set (s := mkState o calls);
    set (s' := mkState (with_optimizer (Some x) o) calls).
  all: destruct (_backend o) as [b|] eqn:Hb;
    [|exists (Raise (Exn ValueError [Lit "The backend has not been set."] None)), [];
      rewrite (dispatch_no_backend s _ _ Hb), (dispatch_no_backend s' _ _ Hb);
      by rewrite app_nil_r].
  all: destruct (_provider o) as [p|] eqn:Hp;
    [|exists (Raise (Exn ValueError [Lit "The provider has not been set."] None)), [];
      rewrite (dispatch_no_provider s _ _ _ Hb Hp),
        (dispatch_no_provider s' _ _ _ Hb Hp);
      by rewrite app_nil_r].
  all: destruct (if isinstance_PauliSumOp operator then Ok operator
                 else to_PauliSumOp operator) as [operator'|exc] eqn:Hop;
    [|destruct (isinstance_PauliSumOp operator) eqn:Hi; [discriminate Hop|];
      eexists _, [];
      rewrite (dispatch_not_castable s _ _ _ _ _ Hb Hp Hi Hop),
        (dispatch_not_castable s' _ _ _ _ _ Hb Hp Hi Hop);
      by rewrite app_nil_r].
  all: destruct (_validate_optimizer_settings (_optimizer_name o)
                   (_optimizer_settings o)) as [[]|e] eqn:Hv;
    [|exists (Raise e), [];
      rewrite (dispatch_invalid_settings s _ _ _ _ _ _ Hb Hp Hop Hv),
        (dispatch_invalid_settings s' _ _ _ _ _ _ Hb Hp Hop Hv);
      by rewrite app_nil_r].
  all: destruct (getattr_runtime p) as [runtime|e] eqn:Hrt;
    [|exists (Raise e), [];
      rewrite (dispatch_no_runtime s _ _ _ _ _ _ Hb Hp Hop Hv Hrt),
        (dispatch_no_runtime s' _ _ _ _ _ _ Hb Hp Hop Hv Hrt);
      by rewrite app_nil_r].
  all: rewrite (dispatch_submits s _ _ _ _ _ _ Hb Hp Hop Hv Hrt),
         (dispatch_submits s' _ _ _ _ _ _ Hb Hp Hop Hv Hrt);
    eexists _, _; split; reflexivity.
Qed.

End Assignments.

(** ** The callback adapter, continued *)

Section CallbackErrors.
Context {np : Numpy} `{Qiskit}.



End CallbackErrors.

(** ** The fake runtime *)

Section FakeRuntime.
#[local] Existing Instance Fake.types.
#[local] Existing Instance Fake.numpy.
#[local] Existing Instance Fake.qiskit.

Import Fake.

(** X17.  The loop over the inputs returns exactly when every key is one of
    the eight known keys and every value is an instance of one of the
    classes listed for its key. *)
Theorem check_inputs_accepts (items : list (string * arg)) :
  check_inputs items = Ok tt ↔
  Forall (λ kv, ∃ ts, dict_get allowed_inputs kv.1 = Ok ts ∧
                      isinstance_any kv.2 ts = true) items.
Proof.
  induction items as [|[k v] items IH]; simpl.
  - split; [constructor|done].
  - rewrite Forall_cons. simpl.
    destruct (dict_get allowed_inputs k) as [ts|e] eqn:Hk; simpl.
    + destruct (isinstance_any v ts) eqn:Hi; simpl.
      * rewrite IH. split; [intros Hr; split; eauto|tauto].
      * split; [done|]. intros [(ts' & [= <-] & Hi') _]. congruence.
    + split; [done|]. intros [(ts' & Hts & _) _]. discriminate Hts.
Qed.

(** X18.  For an option ['backend_name'] that is no string the loop over
    the options does not raise its [ValueError]: building the message looks
    the key up in the table of the inputs, which raises [KeyError]. *)
Theorem check_options_backend_name_not_str
    (v : value) (rest : list (string * value)) :
  (∀ s, v ≠ VStr s) →
  check_options (("backend_name", v) :: rest) =
    Raise (Exn KeyError [Lit "backend_name"] None).
Proof. intros Hv. destruct v; try reflexivity. by destruct (Hv s). Qed.

(** X19.  [FakeVQERuntime.run] returns a job exactly when the program id is
    ['vqe'], both loops return, and the callback, when there is one,
    returns on the fake job id and the fake data. *)
Theorem fake_run_returns
    (rt : FakeVQERuntime) (program_id : string)
    (inputs : list (string * arg)) (options : list (string * value))
    (callback : option callable) :
  run rt program_id inputs options callback = Ok mkFakeJob ↔
  program_id = "vqe" ∧ check_inputs inputs = Ok tt ∧
  check_options options = Ok tt ∧
  (∀ c, callback = Some c → ∃ v, c [fake_job_id; fake_data] = Ok v).
Proof.
  unfold run. destruct (bool_decide (program_id = "vqe")) eqn:Hid; simpl.
  - apply bool_decide_eq_true in Hid.
    destruct (check_inputs inputs) as [[]|e1]; simpl;
      [|split; [done|]; by intros (_ & ? & _)].
    destruct (check_options options) as [[]|e2]; simpl;
      [|split; [done|]; by intros (_ & _ & ? & _)].
    destruct callback as [c|]; simpl;
      [|split; [intros _|done]; by split_and!].
    destruct (c [fake_job_id; fake_data]) as [v|e3] eqn:Hc; simpl.
    + split; [intros _|done]. split_and!; try done.
      intros c' [= <-]. eauto.
    + split; [done|]. intros (_ & _ & _ & Hcb).
      destruct (Hcb c eq_refl) as [v Hv]. congruence.
  - apply bool_decide_eq_false in Hid. split; [done|]. by intros [? _].
Qed.

(** X20.  The fake runtime calls the callback with three fields of data,
    and the adapter reads the fields 4 and 5: with the adapter of any object
    as callback, a [run] that passes the loops raises the [ValueError]
    ['Callback failed'], caused by the [IndexError] of the adapter. *)
Theorem fake_run_with_adapter
    (rt : FakeVQERuntime) (o : VQEProgram)
    (inputs : list (string * arg)) (options : list (string * value)) :
  check_inputs inputs = Ok tt → check_options options = Ok tt →
  run rt "vqe" inputs options (Some (wrapped_callback o)) =
    Raise (Exn ValueError [Lit "Callback failed"]
             (Some (Exn IndexError [Lit "list index out of range"] None))).
Proof. intros Hi Ho. unfold run. simpl. by rewrite Hi, Ho. Qed.

Lemma fake_run_adapter_raises
    (rt : FakeVQERuntime) (program_id : string) (o : VQEProgram)
    (inputs : list (string * arg)) (options : list (string * value)) :
  ∃ e, run rt program_id inputs options (Some (wrapped_callback o)) = Raise e.
Proof.
  unfold run. destruct (negb _); simpl; [eauto|].
  destruct (check_inputs inputs) as [[]|e1]; simpl; [|eauto].
  destruct (check_options options) as [[]|e2]; simpl; eauto.
Qed.

(** X21.  Against the fake runtime, no dispatch on an object whose
    callback has the truth value [True], as every function has, returns a
    result. *)
Theorem fake_dispatch_with_callback_raises
    (s : state) (operator : Operator)
    (aux : option (list (option Operator))) (c : callable) :
  _callback (self s) = Some c → truth c = true →
  ∃ e, (compute_minimum_eigenvalue operator aux s).1 = Raise e.
Proof.
  intros Hcb Htruth.
  destruct (dispatch_cases s operator aux)
    as [[e He]|(b & p & o' & rt & Hb & Hp & Hop & Hv & Hrt)].
  - exists e. by rewrite He.
  - rewrite (dispatch_submits _ _ _ _ _ _ _ Hb Hp Hop Hv Hrt). simpl.
    rewrite Hcb, Htruth.
    match goal with
    | |- context [run ?r ?i ?a ?b (Some (wrapped_callback ?o))] =>
        destruct (fake_run_adapter_raises r i o a b) as [e ->]
    end.
    simpl. eauto.
Qed.

Lemma validate_SPSA_allowed (settings : gmap string value) :
  (∀ k, k ∈ dom settings → VStr k ∈ allowed_settings) →
  _validate_optimizer_settings (VStr "SPSA") settings = Ok tt.
Proof.
  intros Hall. apply validate_SPSA. apply set_eq. intros k.
  rewrite elem_of_unsupported.
  split; [intros [Hk Hn]; destruct Hn; by apply Hall|].
  intros Hk. by apply not_elem_of_empty in Hk.
Qed.

(** X22.  Against the fake runtime, a dispatch returns [None], the result
    of the fake job, after one [run] call and one [result] call, whenever
    the object has the program name ['vqe'], a backend, the fake provider,
    the optimizer ['SPSA'] with allowed settings, no callback, and an
    initial point that is [None] or an array, and the operator is a
    [PauliOp] or a [PauliSumOp]. *)
Theorem fake_dispatch_returns
    (s : state) (operator : Operator)
    (aux : option (list (option Operator))) (b : Backend) :
  _program_name (self s) = "vqe" →
  _backend (self s) = Some b →
  _provider (self s) = Some FakeRuntimeProvider →
  _optimizer_name (self s) = VStr "SPSA" →
  (∀ k, k ∈ dom (_optimizer_settings (self s)) → VStr k ∈ allowed_settings) →
  _callback (self s) = None →
  (_initial_point (self s) = VNone ∨ ∃ a, _initial_point (self s) = VArray a) →
  (∀ v, operator ≠ Plain v) →
  ∃ inputs,
    compute_minimum_eigenvalue operator aux s =
      (Ok VNone,
       mkState (self s)
         (remote s ++
            [RunCall mkFakeVQERuntime "vqe" inputs
               [("backend_name", VStr "aer_simulator")] None;
             ResultCall mkFakeJob])).
Proof.
  intros Hname Hb Hp Hopt Hall Hcb Hpoint Hop.
  assert (∃ o', (if isinstance_PauliSumOp operator then Ok operator
                 else to_PauliSumOp operator) = Ok o' ∧
                isinstance (ArgOperator o') TPauliSumOp = true)
    as (o' & Ho' & Hinst).
  { destruct operator as [pr c|pr c|v]; [| |by destruct (Hop v)];
      eexists; split; reflexivity. }
  assert (_validate_optimizer_settings (_optimizer_name (self s))
            (_optimizer_settings (self s)) = Ok tt) as Hv.
  { rewrite Hopt. by apply validate_SPSA_allowed. }
  rewrite (dispatch_submits s operator aux b FakeRuntimeProvider o'
             mkFakeVQERuntime Hb Hp Ho' Hv eq_refl).
  rewrite Hname, Hopt, Hcb. simpl. unfold run. simpl.
  destruct aux as [l|]; simpl.
  all: destruct o' as [?|pr c|?]; try discriminate Hinst; simpl.
  all: destruct Hpoint as [->|[a ->]]; simpl.
  all: eexists; reflexivity.
Qed.

(** X23.  Against the fake runtime, a dispatch with a Python list as
    initial point is rejected by the [run] call, which accepts an array or a
    string there: the dispatch raises [ValueError] after the [run] call, and
    [result] is not called. *)
Theorem fake_dispatch_list_initial_point
    (s : state) (operator : Operator)
    (aux : option (list (option Operator))) (b : Backend) (l : list value) :
  _program_name (self s) = "vqe" →
  _backend (self s) = Some b →
  _provider (self s) = Some FakeRuntimeProvider →
  _optimizer_name (self s) = VStr "SPSA" →
  (∀ k, k ∈ dom (_optimizer_settings (self s)) → VStr k ∈ allowed_settings) →
  _initial_point (self s) = VList l →
  (∀ v, operator ≠ Plain v) →
  ∃ inputs cb,
    compute_minimum_eigenvalue operator aux s =
      (Raise (Exn ValueError
                [Lit "initial_point"; Lit " does not have the right type: ";
                 Lit "(<class 'numpy.ndarray'>, <class 'str'>)"] None),
       mkState (self s)
         (remote s ++
            [RunCall mkFakeVQERuntime "vqe" inputs
               [("backend_name", VStr "aer_simulator")] cb])).
Proof.
  intros Hname Hb Hp Hopt Hall Hpoint Hop.
  assert (∃ o', (if isinstance_PauliSumOp operator then Ok operator
                 else to_PauliSumOp operator) = Ok o' ∧
                isinstance (ArgOperator o') TPauliSumOp = true)
    as (o' & Ho' & Hinst).
  { destruct operator as [pr c|pr c|v]; [| |by destruct (Hop v)];
      eexists; split; reflexivity. }
  assert (_validate_optimizer_settings (_optimizer_name (self s))
            (_optimizer_settings (self s)) = Ok tt) as Hv.
  { rewrite Hopt. by apply validate_SPSA_allowed. }
  rewrite (dispatch_submits s operator aux b FakeRuntimeProvider o'
             mkFakeVQERuntime Hb Hp Ho' Hv eq_refl).
  rewrite Hname, Hopt, Hpoint. simpl. unfold run. simpl.
  destruct aux as [l'|]; simpl.
  all: destruct o' as [?|pr c|?]; try discriminate Hinst; simpl.
  all: eexists _, _; reflexivity.
Qed.

End FakeRuntime.

(** ** The further theorems at the objects of the test case *)

Section MoreWitnesses.
#[local] Existing Instance Fake.types.
#[local] Existing Instance Fake.numpy.
#[local] Existing Instance Fake.qiskit.

Import Fake.

Lemma validate_unsupported_name_witness :
  ((∀ a, VNone ≠ VArray a) ∧ VNone ≠ VStr "SPSA" ∧ VNone ≠ VStr "QN-SPSA") ∧
  _validate_optimizer_settings VNone {[ "maxiter" := VInt 100 ]} =
    Raise unsupported_optimizer.
Proof.
  split; [split_and!; discriminate|].
  apply (validate_unsupported_name VNone); discriminate.
Defined.

Lemma dispatch_rejects_invalid_settings_witness :
  let s := mkState (with_optimizer_settings {[ "momentum" := VFloat 9 (-1) ]}
                      (self (standard VNone))) [] in
  let e := Exn ValueError
             [Lit "The following settings are unsupported for the ";
              Fmt (VStr "SPSA"); Lit " optimizer: "; Keys {[ "momentum" ]}]
             None in
  _validate_optimizer_settings (_optimizer_name (self s))
    (_optimizer_settings (self s)) = Raise e ∧
  compute_minimum_eigenvalue ZIZ None s = (Raise e, s).
Proof.
  intros s e.
  assert (_validate_optimizer_settings (_optimizer_name (self s))
            (_optimizer_settings (self s)) = Raise e) as Hv
    by (vm_compute; reflexivity).
  split; [exact Hv|].
  exact (dispatch_rejects_invalid_settings s ZIZ
           (PauliSumOp_ ["ZIZ"] (VFloat 10 (-1))) None AerSimulator
           FakeRuntimeProvider e eq_refl eq_refl eq_refl Hv).
Defined.

Lemma dispatch_QN_SPSA_never_runs_witness :
  let s := mkState (with_optimizer_name (VStr "QN-SPSA")
                      (self (standard VNone))) [] in
  _optimizer_name (self s) = VStr "QN-SPSA" ∧
  ∃ e, compute_minimum_eigenvalue ZIZ None s = (Raise e, s).
Proof.
  intros s. split; [reflexivity|].
  exact (dispatch_QN_SPSA_never_runs s ZIZ None eq_refl).
Defined.

Lemma dispatch_without_runtime_attribute_witness :
  let s := mkState (with_provider (Some BasicProvider)
                      (self (standard VNone))) [] in
  let e := Exn AttributeError
             [Lit "'BasicProvider' object has no attribute 'runtime'"] None in
  (provider_setter BasicProvider (standard VNone)).2 = s ∧
  getattr_runtime BasicProvider = Raise e ∧
  compute_minimum_eigenvalue ZIZ None s = (Raise e, s).
Proof.
  intros s e. split_and!; [reflexivity|reflexivity|].
  refine (dispatch_without_runtime_attribute s ZIZ
            (PauliSumOp_ ["ZIZ"] (VFloat 10 (-1))) None AerSimulator
            BasicProvider e eq_refl eq_refl eq_refl _ eq_refl).
  vm_compute; reflexivity.
Defined.

Lemma dispatch_inputs_witness :
  let s := standard standard_point in
  ∃ id inputs options cb rest,
    remote (compute_minimum_eigenvalue ZIZ None s).2 =
      (remote s ++ RunCall mkFakeVQERuntime id inputs options cb :: rest)%list ∧
    inputs.*1 =
      ["operator"; "aux_operators"; "ansatz"; "optimizer"; "optimizer_params";
       "initial_point"; "shots"; "readout_error_mitigation"] ∧
    dict_get inputs "aux_operators" = Ok (ArgOperators None) ∧
    dict_get inputs "ansatz" = Ok (ArgCircuit (RealAmplitudes 3)) ∧
    dict_get inputs "optimizer" = Ok (ArgValue (VStr "SPSA")) ∧
    dict_get inputs "optimizer_params" =
      Ok (ArgDict {[ "maxiter" := VInt 100 ]}) ∧
    dict_get inputs "shots" = Ok (ArgValue (VInt 1024)) ∧
    dict_get inputs "readout_error_mitigation" = Ok (ArgValue (VBool true)).
Proof.
  intros s.
  refine (dispatch_inputs s ZIZ (PauliSumOp_ ["ZIZ"] (VFloat 10 (-1))) None
            AerSimulator FakeRuntimeProvider mkFakeVQERuntime
            eq_refl eq_refl eq_refl _ eq_refl).
  vm_compute; reflexivity.
Defined.

Lemma dispatch_callback_witness :
  let s := mkState (with_callback (Some falsy_callback)
                      (self (standard VNone))) [] in
  ∃ id inputs options cb rest,
    remote (compute_minimum_eigenvalue ZIZ None s).2 =
      (remote s ++ RunCall mkFakeVQERuntime id inputs options cb :: rest)%list ∧
    (cb = None ↔
     _callback (self s) = None ∨
     ∃ c, _callback (self s) = Some c ∧ truth c = false) ∧
    (∀ adapter, cb = Some adapter → adapter = wrapped_callback (self s)).
Proof.
  intros s.
  refine (dispatch_callback s ZIZ (PauliSumOp_ ["ZIZ"] (VFloat 10 (-1))) None
            AerSimulator FakeRuntimeProvider mkFakeVQERuntime
            eq_refl eq_refl eq_refl _ eq_refl).
  vm_compute; reflexivity.
Defined.

Lemma provider_setter_rejects_unauthorized_witness :
  let e := Exn IBMQNotAuthorizedError
             [Lit "You are not authorized to use the runtime service."] None in
  getattr_runtime UnauthorizedAccount = Raise e ∧
  provider_setter UnauthorizedAccount (standard VNone) =
    (Raise (Exn ValueError
              [Lit "The provider "; Lit "<AccountProvider>";
               Lit " does not provide a runtime environment."] None),
     standard VNone).
Proof.
  intros e. split; [reflexivity|].
  exact (provider_setter_rejects_unauthorized UnauthorizedAccount
           (standard VNone) e eq_refl eq_refl).
Defined.

Lemma init_checks_provider_first_witness :
  let e := Exn IBMQNotAuthorizedError
             [Lit "You are not authorized to use the runtime service."] None in
  getattr_runtime UnauthorizedAccount = Raise e ∧
  __init__ (RealAmplitudes 3) (VStr "ADAM") None VNone
    (Some UnauthorizedAccount) (Some AerSimulator) 1024 true None =
    Raise (Exn ValueError
             [Lit "The provider "; Lit "<AccountProvider>";
              Lit " does not provide a runtime environment."] None).
Proof.
  intros e. split; [reflexivity|].
  exact (init_checks_provider_first UnauthorizedAccount e (RealAmplitudes 3)
           (VStr "ADAM") None VNone (Some AerSimulator) 1024 true None
           eq_refl eq_refl).
Defined.

Lemma optimizer_name_stays_supported_witness :
  let ops := [SetOptimizerName (VStr "QN-SPSA"); SetOptimizerName VNone;
              SetOptimizerName (VArray [VStr "SPSA"]);
              SetOptimizerName (VStr "ADAM"); SetShots 10;
              ComputeMinimumEigenvalue ZIZ None] in
  let s := perform_all ops (standard VNone) in
  standard_case None VNone = Ok (self (standard VNone)) ∧
  contains (_optimizer_name (self s)) ["SPSA"; "QN-SPSA"] = Ok true ∧
  ((∀ a, _optimizer_name (self s) ≠ VArray a) →
   _optimizer_name (self s) = VStr "SPSA" ∨
   _optimizer_name (self s) = VStr "QN-SPSA").
Proof.
  intros ops s.
  assert (standard_case None VNone = Ok (self (standard VNone))) as Hinit
    by reflexivity.
  split; [exact Hinit|].
  exact (optimizer_name_stays_supported _ _ _ _ _ _ _ _ _ _ ops Hinit).
Defined.

Lemma assignments_make_no_remote_call_witness :
  let s := (compute_minimum_eigenvalue ZIZ None (standard VNone)).2 in
  let op : operation := @SetProvider types UnauthorizedAccount in
  length (remote s) = 2%nat ∧ remote (perform op s) = remote s.
Proof.
  intros s op. split; [reflexivity|].
  apply (assignments_make_no_remote_call op s). discriminate.
Defined.



Lemma check_options_backend_name_not_str_witness :
  check_options [("backend_name", VInt 7)] =
    Raise (Exn KeyError [Lit "backend_name"] None).
Proof.
  apply (check_options_backend_name_not_str (VInt 7) []). discriminate.
Defined.

Lemma fake_run_with_adapter_witness :
  let o := program (Some FakeRuntimeProvider) (Some AerSimulator) VNone
             (Some four_values) in
  check_inputs [("shots", ArgValue (VInt 1024))] = Ok tt ∧
  check_options [("backend_name", VStr "aer_simulator")] = Ok tt ∧
  run mkFakeVQERuntime "vqe" [("shots", ArgValue (VInt 1024))]
    [("backend_name", VStr "aer_simulator")] (Some (wrapped_callback o)) =
    Raise (Exn ValueError [Lit "Callback failed"]
             (Some (Exn IndexError [Lit "list index out of range"] None))).
Proof.
  intros o. split_and!; [reflexivity|reflexivity|].
  apply (fake_run_with_adapter mkFakeVQERuntime o); reflexivity.
Defined.

Lemma fake_dispatch_with_callback_raises_witness :
  let s := mkState (with_callback (Some count_arguments)
                      (self (standard standard_point))) [] in
  (_callback (self s) = Some count_arguments ∧ truth count_arguments = true) ∧
  ∃ e, (compute_minimum_eigenvalue ZIZ None s).1 = Raise e.
Proof.
  intros s. split; [split; reflexivity|].
  apply (fake_dispatch_with_callback_raises s ZIZ None count_arguments);
    reflexivity.
Defined.

Lemma allowed_maxiter :
  ∀ k, k ∈ dom ({[ "maxiter" := VInt 100 ]} : gmap string value) →
       VStr k ∈ allowed_settings.
Proof.
  intros k Hk. rewrite dom_singleton_L in Hk. apply elem_of_singleton in Hk.
  subst k. unfold allowed_settings. constructor.
Qed.

Lemma fake_dispatch_returns_witness :
  let s := standard standard_point in
  ∃ inputs,
    compute_minimum_eigenvalue ZIZ None s =
      (Ok VNone,
       mkState (self s)
         (remote s ++
            [RunCall mkFakeVQERuntime "vqe" inputs
               [("backend_name", VStr "aer_simulator")] None;
             ResultCall mkFakeJob])).
Proof.
  intros s.
  refine (fake_dispatch_returns s ZIZ None AerSimulator
            eq_refl eq_refl eq_refl eq_refl allowed_maxiter eq_refl _ _).
  - right. eexists. reflexivity.
  - discriminate.
Defined.

Lemma fake_dispatch_list_initial_point_witness :
  let s := standard (VList [VFloat 1 (-1); VFloat 5 (-1)]) in
  ∃ inputs cb,
    compute_minimum_eigenvalue ZIZ None s =
      (Raise (Exn ValueError
                [Lit "initial_point"; Lit " does not have the right type: ";
                 Lit "(<class 'numpy.ndarray'>, <class 'str'>)"] None),
       mkState (self s)
         (remote s ++
            [RunCall mkFakeVQERuntime "vqe" inputs
               [("backend_name", VStr "aer_simulator")] cb])).
Proof.
  intros s.
  refine (fake_dispatch_list_initial_point s ZIZ None AerSimulator
            [VFloat 1 (-1); VFloat 5 (-1)]
            eq_refl eq_refl eq_refl eq_refl allowed_maxiter eq_refl _).
  discriminate.
Defined.

(** A callback whose truth value is [False] is not passed on: the fake
    runtime gets no callback and the dispatch returns. *)
Example test_falsy_callback :
  (compute_minimum_eigenvalue ZIZ None
     (mkState (with_callback (Some falsy_callback)
                 (self (standard standard_point))) [])).1 = Ok VNone.
Proof. vm_compute. reflexivity. Qed.

(** An array of the one string ['SPSA'] passes the membership test and is
    stored as optimizer name; an array of two strings makes the test raise
    the [ValueError] of numpy. *)
Example optimizer_name_setter_array :
  let s := standard VNone in
  optimizer_name_setter (VArray [VStr "SPSA"]) s =
    (Ok tt, mkState (with_optimizer_name (VArray [VStr "SPSA"]) (self s)) []) ∧
  ∃ e, optimizer_name_setter (VArray [VStr "SPSA"; VStr "QN-SPSA"]) s =
         (Raise e, s) ∧ exn_cls e = ValueError.
Proof. intros s. split; [reflexivity|]. eexists. split; reflexivity. Qed.

End MoreWitnesses.

(** ** The dispatch of a valid configuration *)

Section ValidConfiguration.
#[local] Existing Instance Fake.types.
#[local] Existing Instance Fake.numpy.
#[local] Existing Instance Fake.qiskit.

Import Fake.

(** C8 (the code departs from the claim).  The claim asks that every valid
    configuration (backend and provider set, convertible operator, valid
    optimizer settings) is submitted in one [run] call whose result is
    returned.  The constructor accepts the optimizer ['QN-SPSA'] with the
    allowed setting [{'maxiter': 100}], a backend and the fake provider, but
    the dispatch of this object raises the [ValueError] of [list.remove] in
    the validation of the settings and makes no call on the remote service.
    Likewise the provider setter stores a provider without [runtime]
    attribute, and the dispatch of that object raises [AttributeError]
    without a call on the remote service. *)
Theorem dispatch_of_valid_configuration_raises :
  let qn_spsa :=
    mkState (with_optimizer_name (VStr "QN-SPSA") (self (standard VNone))) [] in
  let no_runtime :=
    mkState (with_provider (Some BasicProvider) (self (standard VNone))) [] in
  (__init__ (RealAmplitudes 3) (VStr "QN-SPSA")
     (Some {[ "maxiter" := VInt 100 ]}) VNone (Some FakeRuntimeProvider)
     (Some AerSimulator) 1024 true None = Ok (self qn_spsa) ∧
   compute_minimum_eigenvalue ZIZ None qn_spsa =
     (Raise (Exn ValueError [Lit "list.remove(x): x not in list"] None),
      qn_spsa)) ∧
  (provider_setter BasicProvider (standard VNone) = (Ok tt, no_runtime) ∧
   compute_minimum_eigenvalue ZIZ None no_runtime =
     (Raise (Exn AttributeError
               [Lit "'BasicProvider' object has no attribute 'runtime'"] None),
      no_runtime)).
Proof. intros qn_spsa no_runtime. split_and!; vm_compute; reflexivity. Qed.

End ValidConfiguration.
